(** * The feed aggregator (aggregator.py): a shallow embedding and its properties

    The script is one linear pipeline: load the configuration, expand it to
    a list of feed sources, fetch and parse every source, normalize and
    de-duplicate the entries, sort them and write one CSV snapshot.

    Modelling choices.
    - A Python [str] is a [string]; every [ascii] stands for one character
      (code points below 256), so [String.length] is Python's [len].
    - Dictionaries read at arbitrary keys are [gmap]s; the dedupe set
      [seen] is a [gset].
    - Everything outside the script (environment, file system, YAML text,
      network, feedparser, dateutil, the clock, pandas' sort and the
      writing of the file) is a field of a [World] record; the script's
      module-level state is threaded explicitly through a record [St].
    - An uncaught Python exception is a value of [result]; the ones
      modelled are the [KeyError] of a declaration that lacks a field and
      the [OSError] of a directory or file that cannot be written. *)

From Stdlib Require Import ZArith Ascii Lia Permutation.
From Stdlib Require String.
From stdpp Require Import base tactics option list sorting gmap strings pretty.

Local Open Scope Z_scope.

(** ** Python string operations used by the script *)

Module Py.

(** [bool(s)] for a string: non-empty. *)
Definition truthy (s : string) : bool :=
  match s with
  | EmptyString => false
  | String _ _ => true
  end.

(** [c.isspace()] for a character below U+0100. *)
Definition is_space (c : ascii) : bool :=
  match c with
  | "009" | "010" | "011" | "012" | "013"
  | "028" | "029" | "030" | "031" | " " | "133" | "160" => true
  | _ => false
  end%char.

(** [s.lstrip()] *)
Fixpoint lstrip (s : string) : string :=
  match s with
  | EmptyString => EmptyString
  | String c s' => if is_space c then lstrip s' else s
  end.

(** [s.rstrip()] *)
Fixpoint rstrip (s : string) : string :=
  match s with
  | EmptyString => EmptyString
  | String c s' =>
      match rstrip s' with
      | EmptyString => if is_space c then EmptyString else String c EmptyString
      | r => String c r
      end
  end.

(** [s.strip()] *)
Definition strip (s : string) : string := rstrip (lstrip s).

(** [s.lstrip(chars)] for a one-character [chars]. *)
Fixpoint lstrip_char (a : ascii) (s : string) : string :=
  match s with
  | EmptyString => EmptyString
  | String c s' => if Ascii.eqb c a then lstrip_char a s' else s
  end.

(** [s.replace(a, b)] for one-character [a] and [b]. *)
Fixpoint replace (a b : ascii) (s : string) : string :=
  match s with
  | EmptyString => EmptyString
  | String c s' => String (if Ascii.eqb c a then b else c) (replace a b s')
  end.

(** [s[:n]] *)
Fixpoint slice_to (n : nat) (s : string) : string :=
  match n, s with
  | O, _ => EmptyString
  | _, EmptyString => EmptyString
  | S n', String c s' => String c (slice_to n' s')
  end.

(** [sub in s] *)
Fixpoint contains (sub s : string) : bool :=
  String.prefix sub s ||
  match s with
  | EmptyString => false
  | String _ s' => contains sub s'
  end.

(** [s.encode("utf-8")], bytes as integers in [0, 256). *)
Definition encode_char (c : ascii) : list Z :=
  let n := Z.of_N (N_of_ascii c) in
  if n <? 128 then [n]
  else [Z.lor 192 (Z.shiftr n 6); Z.lor 128 (Z.land n 63)].

Fixpoint encode (s : string) : list Z :=
  match s with
  | EmptyString => []
  | String c s' => encode_char c ++ encode s'
  end.

(** [a or b] on values that may be [None]. *)
Definition or_ (a b : option string) : option string :=
  match a with
  | Some s => if truthy s then a else b
  | None => b
  end.

End Py.

(** ** hashlib.md5 (RFC 1321), on 32-bit words kept in [Z] *)

Module MD5.

Definition w32 (x : Z) : Z := x mod 2 ^ 32.

Definition rotl (x s : Z) : Z :=
  w32 (Z.lor (Z.shiftl x s) (Z.shiftr x (32 - s))).

Definition not32 (x : Z) : Z := Z.lxor x 0xffffffff.

Definition K : list Z :=
  [ 0xd76aa478; 0xe8c7b756; 0x242070db; 0xc1bdceee;
    0xf57c0faf; 0x4787c62a; 0xa8304613; 0xfd469501;
    0x698098d8; 0x8b44f7af; 0xffff5bb1; 0x895cd7be;
    0x6b901122; 0xfd987193; 0xa679438e; 0x49b40821;
    0xf61e2562; 0xc040b340; 0x265e5a51; 0xe9b6c7aa;
    0xd62f105d; 0x02441453; 0xd8a1e681; 0xe7d3fbc8;
    0x21e1cde6; 0xc33707d6; 0xf4d50d87; 0x455a14ed;
    0xa9e3e905; 0xfcefa3f8; 0x676f02d9; 0x8d2a4c8a;
    0xfffa3942; 0x8771f681; 0x6d9d6122; 0xfde5380c;
    0xa4beea44; 0x4bdecfa9; 0xf6bb4b60; 0xbebfbc70;
    0x289b7ec6; 0xeaa127fa; 0xd4ef3085; 0x04881d05;
    0xd9d4d039; 0xe6db99e5; 0x1fa27cf8; 0xc4ac5665;
    0xf4292244; 0x432aff97; 0xab9423a7; 0xfc93a039;
    0x655b59c3; 0x8f0ccc92; 0xffeff47d; 0x85845dd1;
    0x6fa87e4f; 0xfe2ce6e0; 0xa3014314; 0x4e0811a1;
    0xf7537e82; 0xbd3af235; 0x2ad7d2bb; 0xeb86d391 ].

Definition shifts : list Z :=
  [ 7; 12; 17; 22; 7; 12; 17; 22; 7; 12; 17; 22; 7; 12; 17; 22;
    5; 9; 14; 20; 5; 9; 14; 20; 5; 9; 14; 20; 5; 9; 14; 20;
    4; 11; 16; 23; 4; 11; 16; 23; 4; 11; 16; 23; 4; 11; 16; 23;
    6; 10; 15; 21; 6; 10; 15; 21; 6; 10; 15; 21; 6; 10; 15; 21 ].

Definition mix (i : nat) (b c d : Z) : Z :=
  if (i <? 16)%nat then Z.lor (Z.land b c) (Z.land (not32 b) d)
  else if (i <? 32)%nat then Z.lor (Z.land d b) (Z.land (not32 d) c)
  else if (i <? 48)%nat then Z.lxor b (Z.lxor c d)
  else Z.lxor c (Z.lor b (not32 d)).

Definition word_index (i : nat) : nat :=
  if (i <? 16)%nat then i
  else if (i <? 32)%nat then (5 * i + 1) mod 16
  else if (i <? 48)%nat then (3 * i + 5) mod 16
  else (7 * i) mod 16.

Definition state : Type := Z * Z * Z * Z.

Definition step (m : list Z) (st : state) (i : nat) : state :=
  let '(a, b, c, d) := st in
  let f := w32 (mix i b c d + a + nth i K 0 + nth (word_index i) m 0) in
  (d, w32 (b + rotl f (nth i shifts 0)), b, c).

Definition compress (st : state) (m : list Z) : state :=
  let '(a0, b0, c0, d0) := st in
  let '(a, b, c, d) := fold_left (step m) (seq 0 64) st in
  (w32 (a0 + a), w32 (b0 + b), w32 (c0 + c), w32 (d0 + d)).

(** Little-endian bytes of a word, and back. *)
Fixpoint le_bytes (n : nat) (x : Z) : list Z :=
  match n with
  | O => []
  | S n' => x mod 256 :: le_bytes n' (x / 256)
  end.

Fixpoint le_word (bs : list Z) : Z :=
  match bs with
  | [] => 0
  | b :: bs' => b + 256 * le_word bs'
  end.

Definition pad (msg : list Z) : list Z :=
  let len := Z.of_nat (length msg) in
  let zeros := Z.to_nat ((55 - len) mod 64) in
  msg ++ [128] ++ repeat 0 zeros ++ le_bytes 8 ((8 * len) mod 2 ^ 64).

(** Cut a byte list in chunks of [n] bytes; [fuel] bounds the chunk count. *)
Fixpoint chunks (fuel n : nat) (bs : list Z) : list (list Z) :=
  match fuel, bs with
  | O, _ | _, [] => []
  | S fuel', _ => take n bs :: chunks fuel' n (drop n bs)
  end.

Definition block_words (block : list Z) : list Z :=
  le_word <$> chunks 16 4 block.

Definition init : state := (0x67452301, 0xefcdab89, 0x98badcfe, 0x10325476).

Definition digest (msg : list Z) : list Z :=
  let p := pad msg in
  let '(a, b, c, d) :=
    fold_left compress (block_words <$> chunks (length p) 64 p) init in
  le_bytes 4 a ++ le_bytes 4 b ++ le_bytes 4 c ++ le_bytes 4 d.

Definition hex_digit (x : Z) : ascii :=
  ascii_of_N (Z.to_N (if x <? 10 then 48 + x else 87 + x)).

Fixpoint hex (bs : list Z) : string :=
  match bs with
  | [] => EmptyString
  | b :: bs' => String (hex_digit (b / 16)) (String (hex_digit (b mod 16)) (hex bs'))
  end.

(** [hashlib.md5(data).hexdigest()] *)
Definition hexdigest (data : list Z) : string := hex (digest data).

End MD5.

Local Open Scope nat_scope.

(** ** Data model *)

(** One source declaration of the YAML file: a mapping from field names
    ([name], [url], [handle]) to text. *)
Definition Decl : Type := gmap string string.

(** The parsed configuration, [cfg]: the three top-level keys the script
    reads, each possibly absent.

    The types fix the shape of the file, as the specification describes
    this input: a mapping, [nitter_base] a text, [nitter_mirrors] a list
    of texts, [categories] a mapping from keys to lists of declarations,
    every field of a declaration a text.  The
    script checks none of this, and a file of another shape is outside the
    model: with a number for a [handle] line 40 raises [AttributeError],
    with a key that has nothing under it line 31 raises [TypeError], with
    an empty file line 22 raises [AttributeError], and with a number
    other than 0 for a [name] line 58 raises [AttributeError] at the first
    entry of that source that is not discarded, after requests were made.
    Every statement below about configurations, and about runs, is about
    files of the shape above. *)
Record Config : Type := mkConfig {
  cfg_nitter_base : option string;
  cfg_nitter_mirrors : option (list string);
  cfg_categories : option (gmap string (list Decl));
}.

(** An element of [feed_sources]: a dict with the keys [source],
    [category], [url] and, for Twitter accounts only, [handle]. *)
Record SourceSpec : Type := mkSource {
  src_source : string;
  src_category : string;
  src_url : string;
  src_handle : option string;
}.

(** [time.struct_time], as feedparser supplies it in [*_parsed]. *)
Record struct_time : Type := mkTime {
  tm_year : Z; tm_mon : Z; tm_mday : Z; tm_hour : Z; tm_min : Z;
  tm_sec : Z; tm_wday : Z; tm_yday : Z; tm_isdst : Z;
}.

(** A feed entry, read by the script at ten fixed keys. *)
Record Entry : Type := mkEntry {
  e_title : option string;
  e_link : option string;
  e_summary : option string;
  e_description : option string;
  e_published : option string;
  e_updated : option string;
  e_created : option string;
  e_published_parsed : option struct_time;
  e_updated_parsed : option struct_time;
  e_created_parsed : option struct_time;
}.

(** The result of [feedparser.parse]. *)
Record Feed : Type := mkFeed {
  bozo : bool;
  entries : list Entry;
}.

(** A [datetime] is observed only through [isoformat()]. *)
Record datetime : Type := mkDatetime { isoformat : string }.

(** One element of [rows], in the column order of the CSV file. *)
Record NewsRecord : Type := mkRow {
  r_source : string;
  r_category : string;
  r_title : string;
  r_link : string;
  r_summary : string;
  r_published : string;
  r_collected_at : string;
}.

Global Instance struct_time_eq_dec : EqDecision struct_time.
Proof. solve_decision. Defined.
Global Instance SourceSpec_eq_dec : EqDecision SourceSpec.
Proof. solve_decision. Defined.
Global Instance NewsRecord_eq_dec : EqDecision NewsRecord.
Proof. solve_decision. Defined.

(** What [requests.get] does: a response, or an exception with its text. *)
Inductive http_result : Type :=
  | Response (status_code : Z) (text : string)
  | RequestException (message : string).

(** ** The world outside the script *)

Record World : Type := mkWorld {
  (** [os.environ] *)
  environ : gmap string string;
  (** [os.path.exists] *)
  path_exists : string → bool;
  (** [yaml.safe_load] of the file at a path *)
  yaml_safe_load : string → Config;
  (** [requests.get(url, ...)]: the answer to the n-th request of the run *)
  requests_get : nat → string → http_result;
  (** [feedparser.parse] *)
  feedparser_parse : string → Feed;
  (** [dateutil.parser.parse]; [None] when it raises *)
  dtparse_parse : string → option datetime;
  (** [datetime.now(timezone.utc)] at the n-th reading of the clock *)
  now_utc : nat → datetime;
  (** [datetime.now().strftime("%Y-%m-%d")] when the file is written *)
  date_tag : string;
  (** [DataFrame.sort_values(by=..., ascending=...)] with the default
      [kind], on a frame with the columns of line 153 *)
  df_sort_values : list string → bool → list NewsRecord → list NewsRecord;
  (** [os.makedirs(path, exist_ok=True)]: the text of the [OSError] it
      raises, if it does *)
  makedirs : string → option string;
  (** [DataFrame.to_csv(path, ...)]: the text of the [OSError] it raises
      when the file cannot be opened for writing, if it does *)
  to_csv : string → option string;
}.

(** Line 154: [df.sort_values(by=["published"], ascending=False)]. *)
Definition sort_values (W : World) (df : list NewsRecord) : list NewsRecord :=
  df_sort_values W ["published"] false df.

(** ** Uncaught exceptions *)

Inductive exn : Type :=
  | KeyError (key : string)
  | OSError (message : string).

Inductive result (A : Type) : Type :=
  | Ok (a : A)
  | Raise (e : exn).
Arguments Ok {A} a.
Arguments Raise {A} e.

Global Instance result_ret : MRet result := λ A a, Ok a.
Global Instance result_bind : MBind result := λ A B f r,
  match r with
  | Ok a => f a
  | Raise e => Raise e
  end.

(** [d[key]] *)
Definition getitem (d : Decl) (key : string) : result string :=
  match d !! key with
  | Some v => Ok v
  | None => Raise (KeyError key)
  end.

(** ** Loading and expanding the configuration (lines 14-49) *)

Definition NITTER_BASE (cfg : Config) : string :=
  default "https://nitter.net" (cfg_nitter_base cfg).

Definition NITTER_MIRRORS (cfg : Config) : list string :=
  default [NITTER_BASE cfg] (cfg_nitter_mirrors cfg).

Definition categories (cfg : Config) : gmap string (list Decl) :=
  default ∅ (cfg_categories cfg).

(** [categories.get(key, [])] *)
Definition category_list (cats : gmap string (list Decl)) (key : string) : list Decl :=
  default [] (cats !! key).

(** The dict built at lines 32-36, fields evaluated in source order. *)
Definition named_source (cats : gmap string (list Decl)) (item : Decl) : result SourceSpec :=
  name ← getitem item "name";
  let category :=
    if bool_decide (item ∈ category_list cats "substack")
    then "substack" else "fintech_news" in
  url ← getitem item "url";
  mret (mkSource name category url None).

(** The dict built at lines 40-47. *)
Definition twitter_source (base : string) (acct : Decl) : result SourceSpec :=
  h ← getitem acct "handle";
  let handle := Py.lstrip_char "@" h in
  mret (mkSource ("Twitter:" +:+ handle) "twitter"
                 (base +:+ "/" +:+ handle +:+ "/rss") (Some handle)).

Definition build_feed_sources (cfg : Config) : result (list SourceSpec) :=
  let cats := categories cfg in
  named ← mapM (named_source cats)
             (category_list cats "substack" ++ category_list cats "fintech_news");
  twitter ← mapM (twitter_source (NITTER_BASE cfg))
               (category_list cats "twitter_accounts");
  mret (named ++ twitter).

(** ** hash_key (lines 55-59) *)

Definition hash_key (parts : list (option string)) : string :=
  MD5.hexdigest (concat ((λ p, Py.encode (default "" (Py.or_ p (Some "")))) <$> parts)).

Global Arguments hash_key : simpl never.

(** ** Module-level state of a run *)

Record St : Type := mkSt {
  rows : list NewsRecord;      (** [rows] *)
  seen : gset string;          (** [seen] *)
  stdout : list string;        (** what was printed, one text for each call of [print] *)
  requested : list string;     (** the URLs requested so far, oldest first *)
  clock : nat;                 (** how often the clock was read *)
}.

Definition st0 : St := mkSt [] ∅ [] [] 0.

(** [log(msg)] (lines 10-11) *)
Definition log (msg : string) (st : St) : St :=
  mkSt (rows st) (seen st) (stdout st ++ ["[aggregator] " +:+ msg])
       (requested st) (clock st).

(** [datetime.now(timezone.utc)] *)
Definition now (W : World) (st : St) : datetime * St :=
  (now_utc W (clock st),
   mkSt (rows st) (seen st) (stdout st) (requested st) (S (clock st))).

(** ** parse_entry (lines 61-87) *)

(** A value found under a date key: text, or a [struct_time]. *)
Inductive date_value : Type :=
  | DText (s : string)
  | DStruct (t : struct_time).

(** [str(val)] *)
Definition py_str (v : date_value) : string :=
  match v with
  | DText s => s
  | DStruct t =>
      "time.struct_time(tm_year=" +:+ pretty (tm_year t) +:+
      ", tm_mon=" +:+ pretty (tm_mon t) +:+
      ", tm_mday=" +:+ pretty (tm_mday t) +:+
      ", tm_hour=" +:+ pretty (tm_hour t) +:+
      ", tm_min=" +:+ pretty (tm_min t) +:+
      ", tm_sec=" +:+ pretty (tm_sec t) +:+
      ", tm_wday=" +:+ pretty (tm_wday t) +:+
      ", tm_yday=" +:+ pretty (tm_yday t) +:+
      ", tm_isdst=" +:+ pretty (tm_isdst t) +:+ ")"
  end.

(** [entry.get(key)] and [entry.get(f"{key}_parsed")] for the date keys. *)
Definition entry_get (entry : Entry) (key : string) : option string :=
  if decide (key = "published") then e_published entry
  else if decide (key = "updated") then e_updated entry
  else if decide (key = "created") then e_created entry
  else None.

Definition entry_get_parsed (entry : Entry) (key : string) : option struct_time :=
  if decide (key = "published") then e_published_parsed entry
  else if decide (key = "updated") then e_updated_parsed entry
  else if decide (key = "created") then e_created_parsed entry
  else None.

(** [entry.get(key) or entry.get(f"{key}_parsed")] *)
Definition date_candidate (entry : Entry) (key : string) : option date_value :=
  match entry_get entry key with
  | Some s => if Py.truthy s then Some (DText s)
              else DStruct <$> entry_get_parsed entry key
  | None => DStruct <$> entry_get_parsed entry key
  end.

(** [if val:] *)
Definition date_truthy (val : option date_value) : bool :=
  match val with
  | Some (DText s) => Py.truthy s
  | Some (DStruct _) => true
  | None => false
  end.

(** The loop of lines 68-76; [None] when it ends without [break]. *)
Fixpoint parse_published (W : World) (entry : Entry) (keys : list string) : option datetime :=
  match keys with
  | [] => None
  | key :: keys' =>
      match date_candidate entry key with
      | Some v =>
          if date_truthy (Some v) then
            match dtparse_parse W (py_str v) with
            | Some d => Some d
            | None => parse_published W entry keys'
            end
          else parse_published W entry keys'
      | None => parse_published W entry keys'
      end
  end.

Definition date_keys : list string := ["published"; "updated"; "created"].

(** Lines 80-85. *)
Definition clean_summary (summary : string) : string :=
  if Py.truthy summary then
    let summary := Py.strip (Py.replace "013" " " (Py.replace "010" " " summary)) in
    if 2000 <? String.length summary
    then Py.slice_to 2000 summary +:+ "..."
    else summary
  else summary.

(** [(entry.get("summary") or entry.get("description") or "")] *)
Definition raw_summary (entry : Entry) : string :=
  default "" (Py.or_ (Py.or_ (e_summary entry) (e_description entry)) (Some "")).

Definition parse_entry (W : World) (entry : Entry) (st : St)
  : (string * string * string * datetime) * St :=
  let title := Py.strip (default "" (e_title entry)) in
  let link := Py.strip (default "" (e_link entry)) in
  let summary := Py.strip (raw_summary entry) in
  let '(published, st) :=
    match parse_published W entry date_keys with
    | Some d => (d, st)
    | None => now W st
    end in
  ((title, link, clean_summary summary, published), st).

(** ** try_fetch and fetch_feed (lines 89-114) *)

Definition try_fetch (W : World) (url : string) (st : St) : http_result * St :=
  (requests_get W (length (requested st)) url,
   mkSt (rows st) (seen st) (stdout st) (requested st ++ [url]) (clock st)).

(** [r.status_code == 200 and r.text.strip()] *)
Definition accepted (status_code : Z) (text : string) : bool :=
  (status_code =? 200)%Z && Py.truthy (Py.strip text).

(** The mirror loop of lines 98-106. *)
Fixpoint fetch_mirrors (W : World) (mirrors : list string) (handle : string) (st : St)
  : option string * St :=
  match mirrors with
  | [] => (None, st)
  | base :: mirrors' =>
      let test_url := base +:+ "/" +:+ handle +:+ "/rss" in
      let '(r, st) := try_fetch W test_url st in
      match r with
      | Response status_code text =>
          if accepted status_code text then (Some text, st)
          else fetch_mirrors W mirrors' handle st
      | RequestException e =>
          fetch_mirrors W mirrors' handle
            (log ("Nitter mirror failed: " +:+ base +:+ " (" +:+ e +:+ ")") st)
      end
  end.

(** The single request of lines 108-114. *)
Definition fetch_single (W : World) (url : string) (st : St) : option string * St :=
  let '(r, st) := try_fetch W url st in
  match r with
  | Response status_code text =>
      if accepted status_code text then (Some text, st) else (None, st)
  | RequestException e =>
      (None, log ("Fetch failed: " +:+ url +:+ " (" +:+ e +:+ ")") st)
  end.

Definition fetch_feed (W : World) (mirrors : list string)
    (url : string) (handle : option string) (st : St) : option string * St :=
  match handle with
  | Some h =>
      if Py.truthy h && Py.contains "nitter" url
      then fetch_mirrors W mirrors h st
      else fetch_single W url st
  | None => fetch_single W url st
  end.

(** ** The main loop (lines 116-144) *)


(** The body of the inner loop, lines 127-144. *)
Definition process_entry (W : World) (src : SourceSpec) (st : St) (entry : Entry) : St :=
  let '((title, link, summary, published), st) := parse_entry W entry st in
  if negb (Py.truthy title || Py.truthy link) then st
  else
    let key := hash_key [Some (src_source src); Some title; Some link] in
    if bool_decide (key ∈ seen st) then st
    else
      let '(collected_at, st) := now W st in
      mkSt (rows st ++ [mkRow (src_source src) (src_category src) title link summary
                              (isoformat published) (isoformat collected_at)])
           ({[key]} ∪ seen st) (stdout st) (requested st) (clock st).

Definition skip_message (src : SourceSpec) : string :=
  "SKIP (unreachable): " +:+ src_source src +:+ " -> " +:+ src_url src.

(** The body of the outer loop, lines 117-144. *)
Definition process_source (W : World) (mirrors : list string) (st : St) (src : SourceSpec) : St :=
  let '(xml, st) := fetch_feed W mirrors (src_url src) (src_handle src) st in
  match xml with
  | None => log (skip_message src) st
  | Some text =>
      if negb (Py.truthy text) then log (skip_message src) st
      else
        let feed := feedparser_parse W text in
        let st := if bozo feed
                  then log ("Warning: parsing issue for " +:+ src_source src) st
                  else st in
        fold_left (process_entry W src) (take 50 (entries feed)) st
  end.

(** ** The whole script *)

(** How the process ends. *)
Inductive outcome : Type :=
  | Completed                  (** ran off the end of the script *)
  | SysExit (code : Z)         (** [sys.exit(code)] *)
  | Uncaught (e : exn).        (** traceback *)

(** The exit status the operating system sees. *)
Definition exit_code (o : outcome) : Z :=
  match o with
  | Completed => 0
  | SysExit code => code
  | Uncaught _ => 1
  end.

Record Run : Type := mkRun {
  run_outcome : outcome;
  run_stdout : list string;
  run_requested : list string;
  (** the files written: path and data rows (the header row is fixed) *)
  run_files : list (string * list NewsRecord);
}.

Definition CFG_PATH (W : World) : string :=
  default "config/feeds.yaml" (environ W !! "FEEDS_PATH").

(** Lines 116-146: the loop over [feed_sources], from the state [st]. *)
Definition collect (W : World) (mirrors : list string)
    (feed_sources : list SourceSpec) (st : St) : St :=
  fold_left (process_source W mirrors) feed_sources st.

Definition out_path (W : World) : string :=
  "data/news_raw_" +:+ date_tag W +:+ ".csv".

Definition main (W : World) : Run :=
  if negb (path_exists W (CFG_PATH W)) then
    let st := log ("ERROR: " +:+ CFG_PATH W +:+ " not found.") st0 in
    mkRun (SysExit 1) (stdout st) (requested st) []
  else
    let cfg := yaml_safe_load W (CFG_PATH W) in
    match build_feed_sources cfg with
    | Raise e => mkRun (Uncaught e) (stdout st0) (requested st0) []
    | Ok feed_sources =>
        let st := log ("Loaded " +:+ pretty (length feed_sources) +:+ " feeds.") st0 in
        let st := collect W (NITTER_MIRRORS cfg) feed_sources st in
        let st := log ("Collected " +:+ pretty (length (rows st)) +:+ " items.") st in
        match makedirs W "data" with
        | Some e => mkRun (Uncaught (OSError e)) (stdout st) (requested st) []
        | None =>
            let df := sort_values W (rows st) in
            match to_csv W (out_path W) with
            | Some e => mkRun (Uncaught (OSError e)) (stdout st) (requested st) []
            | None =>
                let st := log ("Wrote " +:+ out_path W +:+ " with " +:+
                               pretty (length df) +:+ " rows.") st in
                mkRun Completed (stdout st) (requested st) [(out_path W, df)]
            end
        end
    end.


(** ** Auxiliary notions for the string lemmas *)

(** A string that does not begin with white space. *)
Definition stripped_left (s : string) : Prop :=
  match s with
  | EmptyString => True
  | String c _ => Py.is_space c = false
  end.

(** The cleaning of line 83, applied to the text as found in the entry. *)
Definition cleaned (raw : string) : string :=
  Py.strip (Py.replace "013" " " (Py.replace "010" " " raw)).


(** ** Notions used to state the properties *)

(** The text under a date key, or else its pre-parsed equivalent. *)
Definition field_or_parsed (text : option string) (parsed : option struct_time)
  : option date_value :=
  match text with
  | Some (String c s) => Some (DText (String c s))
  | _ => DStruct <$> parsed
  end.

(** The candidates of an entry, in the order published, updated, created. *)
Definition date_candidates (entry : Entry) : list (option date_value) :=
  [ field_or_parsed (e_published entry) (e_published_parsed entry);
    field_or_parsed (e_updated entry) (e_updated_parsed entry);
    field_or_parsed (e_created entry) (e_created_parsed entry) ].

(** The first candidate that is present and that the date parser accepts. *)
Definition first_parsed (W : World) (cands : list (option date_value)) : option datetime :=
  head (omap (λ c, v ← c; dtparse_parse W (py_str v)) cands).

(** The components of what [parse_entry] returns. *)
Definition entry_title (W : World) (entry : Entry) (st : St) : string :=
  (parse_entry W entry st).1.1.1.1.
Definition entry_link (W : World) (entry : Entry) (st : St) : string :=
  (parse_entry W entry st).1.1.1.2.
Definition entry_summary (W : World) (entry : Entry) (st : St) : string :=
  (parse_entry W entry st).1.1.2.
Definition entry_published (W : World) (entry : Entry) (st : St) : datetime :=
  (parse_entry W entry st).1.2.

(** Rows in descending order of [published] (compared as text, as pandas
    compares a column of strings): no row is followed by a larger one. *)
Definition published_ge (a b : NewsRecord) : Prop :=
  String.le (r_published b) (r_published a).

Global Instance published_ge_dec : RelDecision published_ge.
Proof. intros a b. unfold published_ge. apply _. Defined.




Definition column (name : string) (r : NewsRecord) : option string :=
  if decide (name = "source") then Some (r_source r)
  else if decide (name = "category") then Some (r_category r)
  else if decide (name = "title") then Some (r_title r)
  else if decide (name = "link") then Some (r_link r)
  else if decide (name = "summary") then Some (r_summary r)
  else if decide (name = "published") then Some (r_published r)
  else if decide (name = "collected_at") then Some (r_collected_at r)
  else None.

(** Row [a] may stand before row [b] in a frame sorted by the column
    [name], ascending or descending; the values are compared as text. *)
Definition column_order (name : string) (ascending : bool) (a b : NewsRecord) : Prop :=
  match column name a, column name b with
  | Some x, Some y => if ascending then String.le x y else String.le y x
  | _, _ => True
  end.

Global Instance column_order_dec name ascending : RelDecision (column_order name ascending).
Proof.
  intros a b. unfold column_order.
  destruct (column name a), (column name b), ascending; apply _.
Defined.


(** A sort by one column that keeps this promise (stdpp's merge sort),
    standing for pandas where the model is run. *)
Definition column_sort (names : list string) (ascending : bool) (df : list NewsRecord)
  : list NewsRecord :=
  match names with
  | [name] => merge_sort (column_order name ascending) df
  | _ => df
  end.

(** The rows accumulated by the main loop of a run, before sorting. *)
Definition kept_rows (W : World) : list NewsRecord :=
  match build_feed_sources (yaml_safe_load W (CFG_PATH W)) with
  | Ok feed_sources =>
      rows (collect W (NITTER_MIRRORS (yaml_safe_load W (CFG_PATH W))) feed_sources
              (log ("Loaded " +:+ pretty (length feed_sources) +:+ " feeds.") st0))
  | Raise _ => []
  end.

(** The rows of the files a run wrote. *)
Definition persisted_rows (W : World) : list NewsRecord :=
  mjoin (snd <$> run_files (main W)).

(** The state in which [parse_entry] leaves the run. *)
Definition after_parse (W : World) (entry : Entry) (st : St) : St :=
  (parse_entry W entry st).2.

(** The key computed at line 131 for an entry of a source. *)
Definition entry_key (W : World) (src : SourceSpec) (entry : Entry) (st : St) : string :=
  hash_key [Some (src_source src); Some (entry_title W entry st);
            Some (entry_link W entry st)].

(** The row appended at lines 136-144 for an entry that is kept. *)
Definition entry_row (W : World) (src : SourceSpec) (entry : Entry) (st : St) : NewsRecord :=
  mkRow (src_source src) (src_category src)
        (entry_title W entry st) (entry_link W entry st) (entry_summary W entry st)
        (isoformat (entry_published W entry st))
        (isoformat (now_utc W (clock (after_parse W entry st)))).


(** ** A concrete world, for running the model

    One Substack feed with three entries (one without a date), one news
    site that answers 500, and one Twitter account whose first mirror
    times out and whose second mirror answers. *)

Module Demo.

Definition cfg : Config :=
  mkConfig None (Some ["https://nitter.net"; "https://nitter.example"])
    (Some {[ "substack" := [ ({[ "name" := "Stack"; "url" := "https://stack.example/feed" ]} : Decl) ];
             "fintech_news" := [ ({[ "name" := "News"; "url" := "https://news.example/rss" ]} : Decl) ];
             "twitter_accounts" := [ ({[ "handle" := "@jack" ]} : Decl) ] ]}).

Definition entry (title link summary : string) (published : option string) : Entry :=
  mkEntry (Some title) (Some link) (Some summary) None published None None None None None.

Definition get (n : nat) (url : string) : http_result :=
  if decide (url = "https://stack.example/feed") then Response 200 "<rss>stack</rss>"
  else if decide (url = "https://news.example/rss") then Response 500 "oops"
  else if decide (url = "https://nitter.net/jack/rss") then RequestException "timed out"
  else if decide (url = "https://nitter.example/jack/rss") then Response 200 "<rss>jack</rss>"
  else Response 404 "".

Definition parse (xml : string) : Feed :=
  if decide (xml = "<rss>stack</rss>") then
    mkFeed false
      [ entry " Rates " "https://stack.example/1" "Up." (Some "2024-03-02T08:00:00");
        entry "Banks" "https://stack.example/2" "Down." None;
        entry "" " " "empty" (Some "2024-03-01T08:00:00");
        entry "Rates" "https://stack.example/1" "Up again." (Some "2024-03-05T08:00:00") ]
  else if decide (xml = "<rss>jack</rss>") then
    mkFeed true
      [ entry "hello" "https://nitter.example/jack/1" "hello" (Some "2024-03-03T08:00:00");
        entry "world" "https://nitter.example/jack/2" "world" (Some "yesterday") ]
  else mkFeed true [].

(** The first element of [feed_sources] in this world. *)
Definition stack : SourceSpec :=
  mkSource "Stack" "substack" "https://stack.example/feed" None.

(** The second element: the site that answers 500. *)
Definition news : SourceSpec :=
  mkSource "News" "fintech_news" "https://news.example/rss" None.

(** A stand-in for dateutil: texts that begin with a digit parse. *)
Definition dtparse (s : string) : option datetime :=
  match s with
  | String c _ =>
      match Ascii.is_nat c with
      | Some _ => Some (mkDatetime s)
      | None => None
      end
  | EmptyString => None
  end.

Definition clock_at (n : nat) : datetime :=
  mkDatetime ("2024-03-04T00:00:0" +:+ pretty n +:+ "+00:00").

Definition world : World :=
  mkWorld ∅ (λ p, bool_decide (p = "config/feeds.yaml")) (λ _, cfg)
          get parse dtparse clock_at "2024-03-04" column_sort (λ _, None) (λ _, None).

(** The same world without its configuration file. *)
Definition world_no_config : World :=
  mkWorld ∅ (λ _, false) (λ _, cfg)
          get parse dtparse clock_at "2024-03-04" column_sort (λ _, None) (λ _, None).

End Demo.

(** ** Notions for the fetch stage *)

(** The URL requested from a mirror (line 99). *)
Definition mirror_url (handle base : string) : string :=
  base +:+ "/" +:+ handle +:+ "/rss".

(** The body of an answer the fetch stage accepts: status 200 and a body
    that is not blank. *)
Definition accepted_body (r : http_result) : option string :=
  match r with
  | Response status_code text =>
      if accepted status_code text then Some text else None
  | RequestException _ => None
  end.

(** The answer of the [i]-th mirror, asked as the [i]-th request after the
    state [st]. *)
Definition mirror_answer (W : World) (handle : string) (st : St) (i : nat) (base : string)
  : http_result :=
  requests_get W (length (requested st) + i) (mirror_url handle base).

(** ** Further concrete worlds *)

(** A category key the script does not know. *)
Module Blogs.
Definition decl : Decl := {[ "name" := "A blog"; "url" := "https://blog.example/feed" ]}.
Definition cfg : Config := mkConfig None None (Some {[ "blogs" := [decl] ]}).
End Blogs.

(** One declaration listed under both named-URL keys. *)
Module Twice.
Definition decl : Decl := {[ "name" := "Both"; "url" := "https://both.example/feed" ]}.
Definition cfg : Config :=
  mkConfig None None (Some {[ "substack" := [decl]; "fintech_news" := [decl] ]}).
End Twice.

(** A primary mirror whose host name does not contain "nitter". *)
Module Xcancel.
Definition cfg : Config :=
  mkConfig (Some "https://xcancel.com") (Some ["https://xcancel.com"; "https://nitter.net"])
    (Some {[ "twitter_accounts" := [ ({[ "handle" := "@jack" ]} : Decl) ] ]}).

Definition get (n : nat) (url : string) : http_result :=
  if decide (url = "https://nitter.net/jack/rss") then Response 200 "<rss>jack</rss>"
  else RequestException "connection refused".

Definition world : World :=
  mkWorld ∅ (λ _, true) (λ _, cfg) get Demo.parse Demo.dtparse Demo.clock_at
          "2024-03-04" column_sort (λ _, None) (λ _, None).
End Xcancel.

(** A configuration file that exists, with a declaration that lacks its
    [url]. *)
Module NoUrl.
Definition cfg : Config :=
  mkConfig None None
    (Some {[ "substack" := [ ({[ "name" := "Stack" ]} : Decl) ] ]}).

Definition world : World :=
  mkWorld ∅ (λ _, true) (λ _, cfg) Demo.get Demo.parse Demo.dtparse Demo.clock_at
          "2024-03-04" column_sort (λ _, None) (λ _, None).
End NoUrl.

(** A feed whose eighteen entries carry the same date. *)
Module Ties.
Definition cfg : Config :=
  mkConfig None None
    (Some {[ "substack" := [ ({[ "name" := "Stack"; "url" := "https://stack.example/feed" ]} : Decl) ] ]}).

Definition parse (xml : string) : Feed :=
  mkFeed false
    ((λ n : nat, Demo.entry ("post " +:+ pretty n)
                   ("https://stack.example/" +:+ pretty n) ""
                   (Some "2024-03-02T08:00:00")) <$> seq 0 18).

Definition world : World :=
  mkWorld ∅ (λ _, true) (λ _, cfg) Demo.get parse Demo.dtparse Demo.clock_at
          "2024-03-04" column_sort (λ _, None) (λ _, None).
End Ties.

(** Two sources whose names run into their entries' titles. *)
Module Collision.
Definition cfg : Config :=
  mkConfig None None
    (Some {[ "substack" :=
               [ ({[ "name" := "ab"; "url" := "https://ab.example/feed" ]} : Decl);
                 ({[ "name" := "a"; "url" := "https://a.example/feed" ]} : Decl) ] ]}).

Definition get (n : nat) (url : string) : http_result :=
  if decide (url = "https://ab.example/feed") then Response 200 "<rss>ab</rss>"
  else Response 200 "<rss>a</rss>".

Definition parse (xml : string) : Feed :=
  if decide (xml = "<rss>ab</rss>")
  then mkFeed false [ Demo.entry "c" "" "from ab" (Some "2024-03-02T08:00:00") ]
  else mkFeed false [ Demo.entry "bc" "" "from a" (Some "2024-03-03T08:00:00") ].

Definition source_ab : SourceSpec :=
  mkSource "ab" "substack" "https://ab.example/feed" None.
Definition source_a : SourceSpec :=
  mkSource "a" "substack" "https://a.example/feed" None.

Definition world : World :=
  mkWorld ∅ (λ _, true) (λ _, cfg) get parse Demo.dtparse Demo.clock_at
          "2024-03-04" column_sort (λ _, None) (λ _, None).
End Collision.

(** ** Notions used by the further properties *)

Global Instance exn_eq_dec : EqDecision exn.
Proof. solve_decision. Defined.
Global Instance outcome_eq_dec : EqDecision outcome.
Proof. solve_decision. Defined.

(** The sources of a run, [feed_sources]; none when the expansion fails. *)
Definition feed_sources (W : World) : list SourceSpec :=
  match build_feed_sources (yaml_safe_load W (CFG_PATH W)) with
  | Ok srcs => srcs
  | Raise _ => []
  end.

(** The state in which the main loop of a run ends (line 146). *)
Definition final_state (W : World) : St :=
  collect W (NITTER_MIRRORS (yaml_safe_load W (CFG_PATH W))) (feed_sources W)
    (log ("Loaded " +:+ pretty (length (feed_sources W)) +:+ " feeds.") st0).

(** The URLs the fetch stage may request for a source: its own, and the
    mirrors' for its handle. *)
Definition url_of (mirrors : list string) (src : SourceSpec) (url : string) : Prop :=
  url = src_url src ∨
  ∃ base h, base ∈ mirrors ∧ src_handle src = Some h ∧ url = mirror_url h base.

(** A printed text carries the tag of [log]. *)
Definition tagged (text : string) : Prop :=
  ∃ msg, text = "[aggregator] " +:+ msg.

(** [c in s] for one character. *)
Fixpoint occurs (c : ascii) (s : string) : bool :=
  match s with
  | EmptyString => false
  | String d s' => Ascii.eqb d c || occurs c s'
  end.

(** The body returned is that of the last request made. *)
Definition last_answer (W : World) (st : St) (text : string) : Prop :=
  ∃ url, last (requested st) = Some url ∧
         requests_get W (length (requested st) - 1) url = Response 200 text.



Global Instance Entry_eq_dec : EqDecision Entry.
Proof. solve_decision. Defined.

(** A string of white space only. *)
Fixpoint all_space (s : string) : bool :=
  match s with
  | EmptyString => true
  | String c s' => Py.is_space c && all_space s'
  end.

(** The last character of a string. *)
Fixpoint last_char (s : string) : option ascii :=
  match s with
  | EmptyString => None
  | String c EmptyString => Some c
  | String _ s' => last_char s'
  end.

(** A string that does not end with white space. *)
Definition stripped_right (s : string) : Prop :=
  match last_char s with
  | Some c => Py.is_space c = false
  | None => True
  end.

(** The bytes that [hash_key] feeds to md5, and the text they encode. *)
Definition key_bytes (parts : list (option string)) : list Z :=
  concat ((λ p, Py.encode (default "" (Py.or_ p (Some "")))) <$> parts).

Fixpoint key_text (parts : list (option string)) : string :=
  match parts with
  | [] => ""
  | p :: parts' => default "" p +:+ key_text parts'
  end.

(** Reading back what [Py.encode] wrote: one byte below 128, or a lead
    byte and a continuation byte. *)
Fixpoint decode (fuel : nat) (bs : list Z) : string :=
  match fuel, bs with
  | S fuel', b :: bs' =>
      if (b <? 128)%Z then String (ascii_of_N (Z.to_N b)) (decode fuel' bs')
      else
        match bs' with
        | b2 :: bs'' =>
            String (ascii_of_N (Z.to_N (Z.lor (Z.shiftl (Z.land b 31) 6) (Z.land b2 63))))
                   (decode fuel' bs'')
        | [] => EmptyString
        end
  | _, _ => EmptyString
  end.

(** A character of a hexadecimal digest. *)
Definition hex_char (c : ascii) : Prop := occurs c "0123456789abcdef" = true.

(** The title and link of a row, and of an entry once trimmed. *)
Definition row_pair (r : NewsRecord) : string * string := (r_title r, r_link r).

Definition entry_pair (e : Entry) : string * string :=
  (Py.strip (default "" (e_title e)), Py.strip (default "" (e_link e))).

(** The demonstration world on a disk that cannot be written. *)
Module ReadOnly.
Definition world : World :=
  mkWorld ∅ (λ p, bool_decide (p = "config/feeds.yaml")) (λ _, Demo.cfg)
          Demo.get Demo.parse Demo.dtparse Demo.clock_at "2024-03-04"
          column_sort (λ _, None) (λ _, Some "[Errno 13] Permission denied").
End ReadOnly.

(** * Properties *)

(** Closes a conjunction of equations between closed terms by running the
    model. *)
Ltac by_running :=
  repeat match goal with |- _ ∧ _ => split end; vm_compute; reflexivity.

(** Test vectors (RFC 1321 and hashlib). *)
Example md5_empty : MD5.hexdigest [] = "d41d8cd98f00b204e9800998ecf8427e".
Proof. vm_compute. reflexivity. Qed.

Example md5_abc : MD5.hexdigest (Py.encode "abc") = "900150983cd24fb0d6963f7d28e17f72".
Proof. vm_compute. reflexivity. Qed.

Example md5_two_blocks :
  MD5.hexdigest (repeat 97%Z 70) = "0f5c6c4e740bfcc08c3c26ccb2673d46".
Proof. vm_compute. reflexivity. Qed.


(** ** Facts about the string operations *)

Section strings.

Lemma truthy_true_iff (s : string) : Py.truthy s = true ↔ s ≠ "".
Proof. destruct s; simpl; split; congruence. Qed.

Lemma truthy_false_iff (s : string) : Py.truthy s = false ↔ s = "".
Proof. destruct s; simpl; split; congruence. Qed.

Lemma length_app_string (s t : string) :
  String.length (s +:+ t) = String.length s + String.length t.
Proof. induction s as [|c s IH]; simpl; [done|]. by rewrite <- IH. Qed.

Lemma length_slice_to (n : nat) (s : string) :
  String.length (Py.slice_to n s) = n `min` String.length s.
Proof.
  revert s. induction n as [|n IH]; intros [|c s]; simpl; try done.
  by rewrite IH.
Qed.

Lemma lstrip_stripped_left (s : string) : stripped_left (Py.lstrip s).
Proof.
  induction s as [|c s IH]; simpl; [done|].
  destruct (Py.is_space c) eqn:Hc; [done|]. exact Hc.
Qed.

Lemma lstrip_id (s : string) : stripped_left s → Py.lstrip s = s.
Proof. destruct s as [|c s]; simpl; [done|]. by intros ->. Qed.

Lemma rstrip_stripped_left (s : string) : stripped_left s → stripped_left (Py.rstrip s).
Proof.
  destruct s as [|c s]; simpl; [done|]. intros Hc.
  destruct (Py.rstrip s); simpl; [by rewrite Hc|done].
Qed.

Lemma rstrip_idem (s : string) : Py.rstrip (Py.rstrip s) = Py.rstrip s.
Proof.
  induction s as [|c s IH]; simpl; [done|].
  destruct (Py.rstrip s) as [|d r] eqn:Hr.
  - destruct (Py.is_space c) eqn:Hc; simpl; [done|]. by rewrite Hc.
  - change (Py.rstrip (String c (String d r))) with
      (match Py.rstrip (String d r) with
       | EmptyString => if Py.is_space c then EmptyString else String c EmptyString
       | r' => String c r'
       end).
    by rewrite IH.
Qed.

Lemma strip_idem (s : string) : Py.strip (Py.strip s) = Py.strip s.
Proof.
  unfold Py.strip.
  rewrite (lstrip_id (Py.rstrip (Py.lstrip s))).
  - apply rstrip_idem.
  - apply rstrip_stripped_left, lstrip_stripped_left.
Qed.

(** Replacing one white-space character by another commutes with
    stripping. *)
Section replace_space.
Variables a b : ascii.
Hypothesis a_space : Py.is_space a = true.
Hypothesis b_space : Py.is_space b = true.

Lemma is_space_replaced (c : ascii) :
  Py.is_space (if Ascii.eqb c a then b else c) = Py.is_space c.
Proof.
  destruct (Ascii.eqb c a) eqn:E; [|done].
  apply Ascii.eqb_eq in E as ->. by rewrite a_space, b_space.
Qed.

Lemma replace_lstrip (s : string) :
  Py.replace a b (Py.lstrip s) = Py.lstrip (Py.replace a b s).
Proof.
  induction s as [|c s IH]; simpl; [done|].
  rewrite is_space_replaced. by destruct (Py.is_space c).
Qed.

Lemma replace_rstrip (s : string) :
  Py.replace a b (Py.rstrip s) = Py.rstrip (Py.replace a b s).
Proof.
  induction s as [|c s IH]; simpl; [done|].
  rewrite <- IH, is_space_replaced.
  destruct (Py.rstrip s) as [|d r]; simpl; [|done].
  by destruct (Py.is_space c).
Qed.

Lemma replace_strip (s : string) :
  Py.replace a b (Py.strip s) = Py.strip (Py.replace a b s).
Proof. unfold Py.strip. by rewrite replace_rstrip, replace_lstrip. Qed.
End replace_space.

(** Stripping before the replacement (line 64) changes nothing. *)
Lemma cleaned_strip (raw : string) : cleaned (Py.strip raw) = cleaned raw.
Proof.
  unfold cleaned.
  rewrite !replace_strip by reflexivity.
  apply strip_idem.
Qed.

End strings.


Example md5_latin1 :
  MD5.hexdigest (Py.encode (String "c" (String "a" (String "f" (String "233" "")))))
  = "07117fe4a1ebd544965dc19573183da2".
Proof. vm_compute. reflexivity. Qed.

Example strip_example : Py.strip (String "009" " a b  ") = "a b".
Proof. reflexivity. Qed.

Example contains_example :
  Py.contains "nitter" "https://nitter.net/jack/rss" = true ∧
  Py.contains "nitter" "https://xcancel.com/jack/rss" = false.
Proof. split; reflexivity. Qed.

(** The whole script in the demonstration world: four requests, one
    skipped source, one mirror failure, one discarded entry, one duplicate,
    four rows written in descending order of [published]. *)
Example demo_run :
  run_outcome (main Demo.world) = Completed ∧
  run_requested (main Demo.world) =
    ["https://stack.example/feed"; "https://news.example/rss";
     "https://nitter.net/jack/rss"; "https://nitter.example/jack/rss"] ∧
  run_stdout (main Demo.world) =
    ["[aggregator] Loaded 3 feeds.";
     "[aggregator] SKIP (unreachable): News -> https://news.example/rss";
     "[aggregator] Nitter mirror failed: https://nitter.net (timed out)";
     "[aggregator] Warning: parsing issue for Twitter:jack";
     "[aggregator] Collected 4 items.";
     "[aggregator] Wrote data/news_raw_2024-03-04.csv with 4 rows."] ∧
  (r_title <$> persisted_rows Demo.world) = ["world"; "Banks"; "hello"; "Rates"] ∧
  (r_published <$> persisted_rows Demo.world) =
    ["2024-03-04T00:00:04+00:00"; "2024-03-04T00:00:01+00:00";
     "2024-03-03T08:00:00"; "2024-03-02T08:00:00"].
Proof. by_running. Qed.

(** ** Normalization of one entry *)

Lemma or_default_empty (a : option string) :
  default "" (Py.or_ a (Some "")) = default "" a.
Proof. destruct a as [[|c s]|]; reflexivity. Qed.

Lemma clean_summary_cleaned (s : string) :
  clean_summary (Py.strip s) =
    if 2000 <? String.length (cleaned s)
    then Py.slice_to 2000 (cleaned s) +:+ "..."
    else cleaned s.
Proof.
  unfold clean_summary.
  destruct (Py.truthy (Py.strip s)) eqn:Ht.
  - fold (cleaned (Py.strip s)). by rewrite cleaned_strip.
  - apply truthy_false_iff in Ht.
    assert (cleaned s = "") as ->.
    { rewrite <- cleaned_strip, Ht. reflexivity. }
    by rewrite Ht.
Qed.

Lemma entry_summary_eq (W : World) (entry : Entry) (st : St) :
  entry_summary W entry st = clean_summary (Py.strip (raw_summary entry)).
Proof.
  unfold entry_summary, parse_entry.
  by destruct (parse_published W entry date_keys); [|destruct (now W st)].
Qed.

(** C5. Truncation law: with [L] the length of the cleaned summary text
    (newline and carriage return replaced by a space, then trimmed), the
    normalized summary is the cleaned text when [L <= 2000], and its first
    2000 characters followed by the marker "..." when [L > 2000]; so its
    length is [min L 2000], plus 3 exactly when [L > 2000]. *)
Theorem C5_truncation_law (W : World) (entry : Entry) (st : St) :
  let text := cleaned (raw_summary entry) in
  let L := String.length text in
  let summary := entry_summary W entry st in
  summary = (if 2000 <? L then Py.slice_to 2000 text +:+ "..." else text) ∧
  String.length (Py.slice_to 2000 text) = L `min` 2000 ∧
  String.length summary = L `min` 2000 + (if 2000 <? L then 3 else 0).
Proof.
  intros text L summary. subst summary.
  rewrite entry_summary_eq, clean_summary_cleaned. fold text. fold L.
  assert (String.length (Py.slice_to 2000 text) = L `min` 2000) as Hlen.
  { rewrite length_slice_to. fold L. lia. }
  split; [done|]. split; [done|].
  destruct (2000 <? L) eqn:HL.
  - by rewrite length_app_string, Hlen.
  - apply Nat.ltb_ge in HL. fold L. lia.
Qed.

Example truncation_examples :
  entry_summary Demo.world
    (Demo.entry "t" "l" (String "010" " two" +:+ String "010" "lines" +:+ String "013" " ") None)
    st0 = "two lines" ∧
  String.length
    (entry_summary Demo.world
       (Demo.entry "t" "l" (String.string_of_list_ascii (repeat "x"%char 2005)) None) st0) = 2003 ∧
  String.length
    (entry_summary Demo.world
       (Demo.entry "t" "l" (String.string_of_list_ascii (repeat "x"%char 2000)) None) st0) = 2000.
Proof. by_running. Qed.

Lemma date_candidate_published (entry : Entry) :
  date_candidate entry "published" =
    field_or_parsed (e_published entry) (e_published_parsed entry).
Proof. unfold date_candidate, field_or_parsed, entry_get, entry_get_parsed. simpl. by destruct (e_published entry) as [[|c s]|]. Qed.

Lemma date_candidate_updated (entry : Entry) :
  date_candidate entry "updated" =
    field_or_parsed (e_updated entry) (e_updated_parsed entry).
Proof. unfold date_candidate, field_or_parsed, entry_get, entry_get_parsed. simpl. by destruct (e_updated entry) as [[|c s]|]. Qed.

Lemma date_candidate_created (entry : Entry) :
  date_candidate entry "created" =
    field_or_parsed (e_created entry) (e_created_parsed entry).
Proof. unfold date_candidate, field_or_parsed, entry_get, entry_get_parsed. simpl. by destruct (e_created entry) as [[|c s]|]. Qed.

(** A candidate that is there is never falsy: the guard of line 70 only
    filters absent values. *)
Lemma field_or_parsed_truthy (text : option string) (parsed : option struct_time) (v : date_value) :
  field_or_parsed text parsed = Some v → date_truthy (Some v) = true.
Proof.
  unfold field_or_parsed. intros H.
  destruct text as [[|c s]|]; simplify_eq/=; try done;
    by destruct parsed; simplify_eq/=.
Qed.

(** One turn of the loop of lines 68-76. *)
Lemma parse_published_cons (W : World) (entry : Entry) (key : string) (keys : list string)
    (text : option string) (parsed : option struct_time) :
  date_candidate entry key = field_or_parsed text parsed →
  parse_published W entry (key :: keys) =
    match field_or_parsed text parsed ≫= (λ v, dtparse_parse W (py_str v)) with
    | Some d => Some d
    | None => parse_published W entry keys
    end.
Proof.
  intros Hc. cbn [parse_published]. rewrite Hc.
  destruct (field_or_parsed text parsed) as [v|] eqn:Hv; [|done].
  by rewrite (field_or_parsed_truthy _ _ _ Hv).
Qed.

Lemma parse_published_first_parsed (W : World) (entry : Entry) :
  parse_published W entry date_keys = first_parsed W (date_candidates entry).
Proof.
  unfold date_keys, first_parsed, date_candidates.
  rewrite (parse_published_cons _ _ _ _ _ _ (date_candidate_published entry)).
  rewrite (parse_published_cons _ _ _ _ _ _ (date_candidate_updated entry)).
  rewrite (parse_published_cons _ _ _ _ _ _ (date_candidate_created entry)).
  simpl.
  destruct (field_or_parsed (e_published entry) _ ≫= _); [done|].
  destruct (field_or_parsed (e_updated entry) _ ≫= _); [done|].
  by destruct (field_or_parsed (e_created entry) _ ≫= _).
Qed.

(** C6. The normalized [published] is the first of the entry's
    [published], [updated], [created] values, in that order, that the
    lenient date parser accepts, where the value under a key is its text
    when present and non-empty and its pre-parsed equivalent otherwise;
    when no value is present or none parses, it is the current instant
    (UTC), read from the clock at that moment. *)
Theorem C6_published_resolution (W : World) (entry : Entry) (st : St) :
  entry_published W entry st =
    default (now_utc W (clock st)) (first_parsed W (date_candidates entry)).
Proof.
  unfold entry_published, parse_entry.
  rewrite parse_published_first_parsed.
  by destruct (first_parsed W (date_candidates entry)).
Qed.

(** An unparseable [published] and a pre-parsed [updated] whose text the
    stand-in parser rejects: [created] is taken.  Without any date the
    clock is read. *)
Example published_examples :
  entry_published Demo.world
    (mkEntry (Some "t") (Some "l") None None
       (Some "yesterday") None (Some "2024-03-01T08:00:00")
       None (Some (mkTime 2024 3 2 8 0 0 5 62 0)) None) st0
    = mkDatetime "2024-03-01T08:00:00" ∧
  py_str (DStruct (mkTime 2024 3 2 8 0 0 5 62 0)) =
    "time.struct_time(tm_year=2024, tm_mon=3, tm_mday=2, tm_hour=8, tm_min=0, tm_sec=0, tm_wday=5, tm_yday=62, tm_isdst=0)" ∧
  entry_published Demo.world (Demo.entry "t" "l" "" None) st0 = Demo.clock_at 0.
Proof. by_running. Qed.

(** ** The main loop *)

Lemma after_parse_fields (W : World) (entry : Entry) (st : St) :
  rows (after_parse W entry st) = rows st ∧
  seen (after_parse W entry st) = seen st ∧
  stdout (after_parse W entry st) = stdout st ∧
  requested (after_parse W entry st) = requested st.
Proof.
  unfold after_parse, parse_entry.
  by destruct (parse_published W entry date_keys).
Qed.

Lemma entry_title_eq (W : World) (entry : Entry) (st : St) :
  entry_title W entry st = Py.strip (default "" (e_title entry)).
Proof.
  unfold entry_title, parse_entry.
  by destruct (parse_published W entry date_keys); [|destruct (now W st)].
Qed.

Lemma entry_link_eq (W : World) (entry : Entry) (st : St) :
  entry_link W entry st = Py.strip (default "" (e_link entry)).
Proof.
  unfold entry_link, parse_entry.
  by destruct (parse_published W entry date_keys); [|destruct (now W st)].
Qed.

(** The inner loop body, case by case. *)
Lemma process_entry_eq (W : World) (src : SourceSpec) (st : St) (entry : Entry) :
  process_entry W src st entry =
    let st1 := after_parse W entry st in
    if negb (Py.truthy (entry_title W entry st) || Py.truthy (entry_link W entry st))
    then st1
    else if bool_decide (entry_key W src entry st ∈ seen st) then st1
    else mkSt (rows st ++ [entry_row W src entry st])
              ({[entry_key W src entry st]} ∪ seen st)
              (stdout st) (requested st) (S (clock st1)).
Proof.
  pose proof (after_parse_fields W entry st) as (Hr & Hs & Ho & Hq).
  unfold process_entry, entry_row, entry_key, entry_title, entry_link,
    entry_summary, entry_published, after_parse in *.
  destruct (parse_entry W entry st) as [[[[title link] summary] published] st1].
  simpl in *. rewrite Hr, Hs, Ho, Hq.
  by repeat case_match.
Qed.

Lemma process_entry_discarded (W : World) (src : SourceSpec) (st : St) (entry : Entry) :
  entry_title W entry st = "" → entry_link W entry st = "" →
  process_entry W src st entry = after_parse W entry st.
Proof. intros Ht Hl. rewrite process_entry_eq, Ht, Hl. reflexivity. Qed.

Lemma process_entry_duplicate (W : World) (src : SourceSpec) (st : St) (entry : Entry) :
  entry_key W src entry st ∈ seen st →
  process_entry W src st entry = after_parse W entry st.
Proof.
  intros Hk. rewrite process_entry_eq. cbv zeta.
  rewrite (bool_decide_eq_true_2 _ Hk). by case_match.
Qed.

Lemma process_entry_kept (W : World) (src : SourceSpec) (st : St) (entry : Entry) :
  entry_title W entry st ≠ "" ∨ entry_link W entry st ≠ "" →
  entry_key W src entry st ∉ seen st →
  process_entry W src st entry =
    mkSt (rows st ++ [entry_row W src entry st])
         ({[entry_key W src entry st]} ∪ seen st)
         (stdout st) (requested st) (S (clock (after_parse W entry st))).
Proof.
  intros Hne Hk. rewrite process_entry_eq. cbv zeta.
  rewrite (bool_decide_eq_false_2 _ Hk).
  destruct Hne as [H|H]; apply truthy_true_iff in H; rewrite H; simpl; [done|].
  by rewrite orb_true_r.
Qed.

(** Every property of [rows] and [seen] that the inner loop body
    preserves is preserved by the whole loop: fetching and logging touch
    neither. *)
Lemma fetch_mirrors_records (W : World) (mirrors : list string) (h : string) (st : St) :
  rows (fetch_mirrors W mirrors h st).2 = rows st ∧
  seen (fetch_mirrors W mirrors h st).2 = seen st.
Proof.
  revert st. induction mirrors as [|base mirrors IH]; intros st; simpl; [done|].
  destruct (requests_get W _ _) as [code text|e].
  - destruct (accepted code text); [done|]. by destruct (IH (try_fetch W (base +:+ "/" +:+ h +:+ "/rss") st).2).
  - match goal with |- context [fetch_mirrors W mirrors h ?s] => by destruct (IH s) end.
Qed.

Lemma fetch_single_records (W : World) (url : string) (st : St) :
  rows (fetch_single W url st).2 = rows st ∧ seen (fetch_single W url st).2 = seen st.
Proof.
  unfold fetch_single. simpl.
  destruct (requests_get W _ _) as [code text|e]; [|done].
  by destruct (accepted code text).
Qed.

Lemma fetch_feed_records (W : World) (mirrors : list string) (url : string)
    (handle : option string) (st : St) :
  rows (fetch_feed W mirrors url handle st).2 = rows st ∧
  seen (fetch_feed W mirrors url handle st).2 = seen st.
Proof.
  unfold fetch_feed. destruct handle as [h|]; [|apply fetch_single_records].
  destruct (_ && _); [apply fetch_mirrors_records|apply fetch_single_records].
Qed.

Section loop_invariant.
Variable W : World.
Variable P : list NewsRecord → gset string → Prop.
Hypothesis P_entry : ∀ src st entry,
  P (rows st) (seen st) →
  P (rows (process_entry W src st entry)) (seen (process_entry W src st entry)).




End loop_invariant.






(** ** De-duplication *)






(** ** The fetch stage *)

Lemma try_fetch_requested (W : World) (url : string) (st : St) :
  requested (try_fetch W url st).2 = requested st ++ [url].
Proof. reflexivity. Qed.

Lemma accepted_body_Some (r : http_result) (body : string) :
  accepted_body r = Some body →
  ∃ code, r = Response code body ∧ accepted code body = true.
Proof.
  destruct r as [code text|e]; simpl; [|done].
  destruct (accepted code text) eqn:Ha; [|done]. intros [= <-]. eauto.
Qed.

(** The mirror loop stops at the first mirror whose answer is accepted,
    having asked exactly the mirrors up to that one, in order. *)
Lemma fetch_mirrors_first (W : World) (h : string) (mirrors : list string) :
  ∀ (st : St) (i : nat) (base body : string),
    mirrors !! i = Some base →
    (∀ j base', j < i → mirrors !! j = Some base' →
                accepted_body (mirror_answer W h st j base') = None) →
    accepted_body (mirror_answer W h st i base) = Some body →
    (fetch_mirrors W mirrors h st).1 = Some body ∧
    requested (fetch_mirrors W mirrors h st).2 =
      requested st ++ (mirror_url h <$> take (S i) mirrors).
Proof.
  induction mirrors as [|b mirrors IH]; intros st i base body Hi Hbefore Hok; [done|].
  cbn [fetch_mirrors]. fold (mirror_url h b).
  destruct i as [|i].
  - simplify_eq/=. unfold mirror_answer in Hok. rewrite Nat.add_0_r in Hok.
    apply accepted_body_Some in Hok as (code & -> & ->). done.
  - pose proof (Hbefore 0 b ltac:(lia) eq_refl) as H0.
    unfold mirror_answer in H0. rewrite Nat.add_0_r in H0.
    simpl in Hi. simpl.
    assert (∀ st1, requested st1 = requested st ++ [mirror_url h b] →
                   (fetch_mirrors W mirrors h st1).1 = Some body ∧
                   requested (fetch_mirrors W mirrors h st1).2 =
                     requested st ++ mirror_url h b :: (mirror_url h <$> take (S i) mirrors))
      as Hnext.
    { intros st1 Hst1.
      assert (∀ j base', mirror_answer W h st1 j base' = mirror_answer W h st (S j) base')
        as Hshift.
      { intros j base'. unfold mirror_answer. rewrite Hst1, length_app. simpl.
        f_equal. lia. }
      destruct (IH st1 i base body Hi) as [H1 H2].
      - intros j base' Hj Hl. rewrite Hshift. apply Hbefore; [lia|done].
      - by rewrite Hshift.
      - split; [done|]. rewrite H2, Hst1, <- app_assoc. reflexivity. }
    destruct (requests_get W (length (requested st)) (mirror_url h b)) as [code text|e];
      simpl in H0.
    + destruct (accepted code text); [done|]. by apply Hnext.
    + by apply Hnext.
Qed.

(** When no mirror's answer is accepted, every mirror is asked, in order,
    and the loop yields nothing. *)
Lemma fetch_mirrors_exhausted (W : World) (h : string) (mirrors : list string) :
  ∀ st : St,
    (∀ i base, mirrors !! i = Some base →
               accepted_body (mirror_answer W h st i base) = None) →
    (fetch_mirrors W mirrors h st).1 = None ∧
    requested (fetch_mirrors W mirrors h st).2 =
      requested st ++ (mirror_url h <$> mirrors).
Proof.
  induction mirrors as [|b mirrors IH]; intros st Hall.
  { simpl. by rewrite app_nil_r. }
  cbn [fetch_mirrors]. fold (mirror_url h b).
  pose proof (Hall 0 b eq_refl) as H0.
  unfold mirror_answer in H0. rewrite Nat.add_0_r in H0. simpl.
  assert (∀ st1, requested st1 = requested st ++ [mirror_url h b] →
                 (fetch_mirrors W mirrors h st1).1 = None ∧
                 requested (fetch_mirrors W mirrors h st1).2 =
                   requested st ++ mirror_url h b :: (mirror_url h <$> mirrors))
    as Hnext.
  { intros st1 Hst1. destruct (IH st1) as [H1 H2].
    - intros i base Hi. specialize (Hall (S i) base Hi).
      unfold mirror_answer in *. rewrite Hst1, length_app. simpl.
      by replace (length (requested st) + 1 + i) with (length (requested st) + S i) by lia.
    - split; [done|]. rewrite H2, Hst1, <- app_assoc. reflexivity. }
  destruct (requests_get W (length (requested st)) (mirror_url h b)) as [code text|e];
    simpl in H0.
  - destruct (accepted code text); [done|]. by apply Hnext.
  - by apply Hnext.
Qed.

(** The single request. *)
Lemma fetch_single_result (W : World) (url : string) (st : St) :
  (fetch_single W url st).1 = accepted_body (requests_get W (length (requested st)) url) ∧
  requested (fetch_single W url st).2 = requested st ++ [url].
Proof.
  unfold fetch_single. simpl.
  destruct (requests_get W _ _) as [code text|e]; simpl; [|done].
  by destruct (accepted code text).
Qed.

(** C3 (as amended). The mirror loop runs for a source whose [handle] is
    a non-empty string and whose [url] contains "nitter".  It then asks the
    mirrors in order, each at [{base}/{handle}/rss], and returns the body of
    the first answer with status 200 and a body that is not blank, having
    asked no mirror after that one; when no mirror gives such an answer,
    all of them have been asked and the source yields nothing.  A source
    without a handle, with an empty handle, or whose [url] does not contain
    "nitter", is fetched by the single request to [url]. *)
Theorem C3_mirror_fallback (W : World) (mirrors : list string) (url : string)
    (handle : option string) (st : St) :
  let res := fetch_feed W mirrors url handle st in
  (∀ h, handle = Some h → h ≠ "" → Py.contains "nitter" url = true →
     (∀ i base body,
        mirrors !! i = Some base →
        (∀ j base', j < i → mirrors !! j = Some base' →
                    accepted_body (mirror_answer W h st j base') = None) →
        accepted_body (mirror_answer W h st i base) = Some body →
        res.1 = Some body ∧
        requested res.2 = requested st ++ (mirror_url h <$> take (S i) mirrors)) ∧
     ((∀ i base, mirrors !! i = Some base →
                 accepted_body (mirror_answer W h st i base) = None) →
      res.1 = None ∧
      requested res.2 = requested st ++ (mirror_url h <$> mirrors))) ∧
  (handle = None ∨ handle = Some "" ∨ Py.contains "nitter" url = false →
   res = fetch_single W url st ∧
   res.1 = accepted_body (requests_get W (length (requested st)) url) ∧
   requested res.2 = requested st ++ [url]) ∧
  rows res.2 = rows st ∧ seen res.2 = seen st.
Proof.
  intros res. subst res. split; [|split].
  - intros h -> Hh Hn. apply truthy_true_iff in Hh.
    unfold fetch_feed. rewrite Hh, Hn. simpl. split.
    + apply fetch_mirrors_first.
    + apply fetch_mirrors_exhausted.
  - intros Hcase.
    assert (fetch_feed W mirrors url handle st = fetch_single W url st) as ->.
    { unfold fetch_feed. destruct Hcase as [-> | [-> | Hn]]; [done..|].
      destruct handle as [h|]; [|done]. by rewrite Hn, andb_false_r. }
    split; [done|]. apply fetch_single_result.
  - apply fetch_feed_records.
Qed.

Lemma C3_mirror_fallback_witness :
  (fetch_feed Demo.world ["https://nitter.net"; "https://nitter.example"]
     "https://nitter.net/jack/rss" (Some "jack") st0).1 = Some "<rss>jack</rss>" ∧
  requested (fetch_feed Demo.world ["https://nitter.net"; "https://nitter.example"]
               "https://nitter.net/jack/rss" (Some "jack") st0).2 =
    requested st0 ++
      (mirror_url "jack" <$> take 2 ["https://nitter.net"; "https://nitter.example"]).
Proof.
  apply (C3_mirror_fallback Demo.world ["https://nitter.net"; "https://nitter.example"]
           "https://nitter.net/jack/rss" (Some "jack") st0)
    with (h := "jack") (i := 1) (base := "https://nitter.example").
  - reflexivity.
  - discriminate.
  - reflexivity.
  - reflexivity.
  - intros [|j] base' Hj Hl; [|lia]. injection Hl as <-. reflexivity.
  - reflexivity.
Defined.

(** C3, as stated, fails: this Twitter source has its [handle], and the
    second mirror would answer with status 200 and a feed, but the primary
    URL does not contain "nitter", so only that URL is asked and the source
    yields nothing. *)
Lemma C3_counterexample :
  build_feed_sources Xcancel.cfg =
    Ok [mkSource "Twitter:jack" "twitter" "https://xcancel.com/jack/rss" (Some "jack")] ∧
  NITTER_MIRRORS Xcancel.cfg = ["https://xcancel.com"; "https://nitter.net"] ∧
  accepted_body (requests_get Xcancel.world 1 "https://nitter.net/jack/rss") =
    Some "<rss>jack</rss>" ∧
  (fetch_feed Xcancel.world (NITTER_MIRRORS Xcancel.cfg)
     "https://xcancel.com/jack/rss" (Some "jack") st0).1 = None ∧
  requested (fetch_feed Xcancel.world (NITTER_MIRRORS Xcancel.cfg)
               "https://xcancel.com/jack/rss" (Some "jack") st0).2 =
    ["https://xcancel.com/jack/rss"].
Proof. by_running. Qed.

(** ** Failures *)

Lemma accepted_true (code : Z) (text : string) :
  accepted code text = true → code = 200%Z ∧ Py.strip text ≠ "".
Proof.
  unfold accepted. intros [Hc Ht]%andb_true_iff.
  split; [by apply Z.eqb_eq|by apply truthy_true_iff].
Qed.

Lemma strip_nonempty_truthy (text : string) : Py.strip text ≠ "" → Py.truthy text = true.
Proof. destruct text; [done|]. reflexivity. Qed.

Lemma try_fetch_last_answer (W : World) (url : string) (st : St) (code : Z) (text : string) :
  requests_get W (length (requested st)) url = Response code text →
  accepted code text = true →
  last_answer W (try_fetch W url st).2 text ∧ Py.strip text ≠ "".
Proof.
  intros Hr [-> Ht]%accepted_true. split; [|done].
  exists url. simpl. rewrite last_snoc, length_app. simpl.
  split; [done|]. by replace (length (requested st) + 1 - 1) with (length (requested st)) by lia.
Qed.

Lemma fetch_mirrors_Some (W : World) (h : string) (ms : list string) :
  ∀ st text,
    (fetch_mirrors W ms h st).1 = Some text →
    last_answer W (fetch_mirrors W ms h st).2 text ∧ Py.strip text ≠ "".
Proof.
  induction ms as [|base ms IH]; intros st text; [done|].
  cbn [fetch_mirrors].
  pose proof (try_fetch_last_answer W (base +:+ "/" +:+ h +:+ "/rss") st) as Hlast.
  simpl in *.
  destruct (requests_get W _ _) as [code body|e].
  - destruct (accepted code body) eqn:Ha.
    + simpl. intros [= <-]. by apply (Hlast code).
    + apply IH.
  - apply IH.
Qed.

Lemma fetch_single_Some (W : World) (url : string) (st : St) (text : string) :
  (fetch_single W url st).1 = Some text →
  last_answer W (fetch_single W url st).2 text ∧ Py.strip text ≠ "".
Proof.
  unfold fetch_single.
  pose proof (try_fetch_last_answer W url st) as Hlast. simpl in *.
  destruct (requests_get W _ _) as [code body|e]; [|done].
  destruct (accepted code body) eqn:Ha; [|done].
  simpl. intros [= <-]. by apply (Hlast code).
Qed.

Lemma fetch_feed_Some (W : World) (mirrors : list string) (url : string)
    (handle : option string) (st : St) (text : string) :
  (fetch_feed W mirrors url handle st).1 = Some text →
  last_answer W (fetch_feed W mirrors url handle st).2 text ∧
  Py.strip text ≠ "" ∧ Py.truthy text = true.
Proof.
  intros H.
  assert (last_answer W (fetch_feed W mirrors url handle st).2 text ∧ Py.strip text ≠ "")
    as [Hl Ht].
  { revert H. unfold fetch_feed. destruct handle as [h|]; [|apply fetch_single_Some].
    destruct (_ && _); [apply fetch_mirrors_Some|apply fetch_single_Some]. }
  split; [exact Hl|]. split; [done|]. by apply strip_nonempty_truthy.
Qed.

Lemma process_entry_output (W : World) (src : SourceSpec) (st : St) (entry : Entry) :
  stdout (process_entry W src st entry) = stdout st ∧
  requested (process_entry W src st entry) = requested st.
Proof.
  rewrite process_entry_eq. cbv zeta.
  destruct (after_parse_fields W entry st) as (_ & _ & Ho & Hq).
  destruct (negb _); [done|]. by case_bool_decide.
Qed.












(** In the demonstration run the news site does not answer: the skip is
    in the output of the run, the other sources are fetched after it, and
    the run completes. *)
Example demo_skip_is_printed :
  "[aggregator] SKIP (unreachable): News -> https://news.example/rss"
    ∈ run_stdout (main Demo.world) ∧
  run_outcome (main Demo.world) = Completed.
Proof.
  split; [|vm_compute; reflexivity].
  apply (bool_decide_unpack _). vm_compute. exact I.
Qed.

(** C8 (as amended). When the configuration path (the value of
    [FEEDS_PATH], by default [config/feeds.yaml]) does not exist, the
    script prints one error text and exits with code 1, having requested
    nothing and written no file.  This is the only exit the script makes
    itself: a run that ends by [sys.exit] ends with code 1, on a missing
    path. *)
Theorem C8_missing_config_exits (W : World) :
  CFG_PATH W = default "config/feeds.yaml" (environ W !! "FEEDS_PATH") ∧
  (path_exists W (CFG_PATH W) = false →
   main W = mkRun (SysExit 1) ["[aggregator] ERROR: " +:+ CFG_PATH W +:+ " not found."] [] [] ∧
   exit_code (run_outcome (main W)) = 1%Z) ∧
  (∀ code, run_outcome (main W) = SysExit code →
           code = 1%Z ∧ path_exists W (CFG_PATH W) = false).
Proof.
  split; [reflexivity|]. unfold main.
  destruct (path_exists W (CFG_PATH W)) eqn:Hp; simpl.
  - split; [done|].
    destruct (build_feed_sources _); simpl; [|done].
    destruct (makedirs W "data"); simpl; [done|].
    by destruct (to_csv W (out_path W)).
  - split; [done|].
    intros code [= <-]. done.
Qed.

Lemma C8_missing_config_exits_witness :
  main Demo.world_no_config =
    mkRun (SysExit 1) ["[aggregator] ERROR: " +:+ CFG_PATH Demo.world_no_config +:+ " not found."]
          [] [] ∧
  exit_code (run_outcome (main Demo.world_no_config)) = 1%Z.
Proof.
  apply (C8_missing_config_exits Demo.world_no_config). reflexivity.
Defined.

(** C8, as stated, fails: here the configuration file exists, and the run
    still ends abnormally with status 1, before any request and without a
    file, on the [KeyError] of line 35. *)
Lemma C8_counterexample :
  path_exists NoUrl.world (CFG_PATH NoUrl.world) = true ∧
  main NoUrl.world = mkRun (Uncaught (KeyError "url")) [] [] [] ∧
  exit_code (run_outcome (main NoUrl.world)) = 1%Z.
Proof. by_running. Qed.

(** Nor does every run that fails stop before fetching: on a disk that
    cannot be written the run makes its requests, and ends on the error
    of line 155 without a file. *)
Example read_only_run :
  run_outcome (main ReadOnly.world) = Uncaught (OSError "[Errno 13] Permission denied") ∧
  run_requested (main ReadOnly.world) = run_requested (main Demo.world) ∧
  run_requested (main ReadOnly.world) ≠ [] ∧
  run_files (main ReadOnly.world) = [].
Proof.
  split; [vm_compute; reflexivity|].
  split; [vm_compute; reflexivity|].
  split; [|vm_compute; reflexivity].
  apply (bool_decide_unpack _). vm_compute. exact I.
Qed.

(** ** Expanding the configuration *)

Lemma mapM_result_Ok {A B : Type} (f : A → result B) (l : list A) (ys : list B) :
  mapM f l = Ok ys →
  length ys = length l ∧
  ∀ i x, l !! i = Some x → ∃ y, ys !! i = Some y ∧ f x = Ok y.
Proof.
  revert ys. induction l as [|a l IH]; intros ys; simpl.
  - intros [= <-]. split; [done|]. intros i x Hi. by rewrite lookup_nil in Hi.
  - unfold mbind, result_bind at 1.
    destruct (f a) as [y|e] eqn:Hfa; [|done].
    unfold mbind, result_bind at 1.
    destruct (mapM f l) as [ys'|e]; [|done].
    intros [= <-]. destruct (IH ys' eq_refl) as [Hlen Hall].
    split; [simpl; by rewrite Hlen|].
    intros [|i] x Hi; simplify_eq/=; eauto.
Qed.

Lemma named_source_Ok (cats : gmap string (list Decl)) (item : Decl) (s : SourceSpec) :
  named_source cats item = Ok s →
  item !! "name" = Some (src_source s) ∧ item !! "url" = Some (src_url s) ∧
  src_handle s = None ∧
  src_category s =
    (if bool_decide (item ∈ category_list cats "substack")
     then "substack" else "fintech_news").
Proof.
  unfold named_source, getitem.
  destruct (item !! "name") as [name|]; [|done].
  destruct (item !! "url") as [url|]; [|done].
  by intros [= <-].
Qed.

Lemma build_feed_sources_Ok (cfg : Config) (srcs : list SourceSpec) :
  build_feed_sources cfg = Ok srcs →
  ∃ named twitter,
    srcs = named ++ twitter ∧
    mapM (named_source (categories cfg))
      (category_list (categories cfg) "substack" ++
       category_list (categories cfg) "fintech_news") = Ok named ∧
    mapM (twitter_source (NITTER_BASE cfg))
      (category_list (categories cfg) "twitter_accounts") = Ok twitter.
Proof.
  unfold build_feed_sources.
  destruct (mapM (named_source _) _) as [named|e]; [|done].
  destruct (mapM (twitter_source _) _) as [twitter|e]; [|done].
  intros [= <-]. eauto.
Qed.

(** C1 (as amended). The expander reads the named-URL declarations under
    the keys [substack] and [fintech_news] only, in this order, before the
    Twitter accounts: it yields one source per declaration, also for a
    declaration listed twice, carrying the declaration's name and URL and
    no handle; a declaration under [substack] is tagged "substack", and a
    declaration under [fintech_news] is tagged "fintech_news" when it is
    not also listed under [substack].  Every other category key is
    ignored. *)
Theorem C1_named_sources (cfg : Config) (srcs : list SourceSpec) :
  build_feed_sources cfg = Ok srcs →
  let subs := category_list (categories cfg) "substack" in
  let news := category_list (categories cfg) "fintech_news" in
  let accounts := category_list (categories cfg) "twitter_accounts" in
  length srcs = length subs + length news + length accounts ∧
  (∀ i item, subs !! i = Some item →
     ∃ s, srcs !! i = Some s ∧ src_category s = "substack" ∧
          item !! "name" = Some (src_source s) ∧ item !! "url" = Some (src_url s) ∧
          src_handle s = None) ∧
  (∀ i item, news !! i = Some item →
     ∃ s, srcs !! (length subs + i) = Some s ∧
          item !! "name" = Some (src_source s) ∧ item !! "url" = Some (src_url s) ∧
          src_handle s = None ∧
          (item ∉ subs → src_category s = "fintech_news")) ∧
  (∀ cfg', NITTER_BASE cfg' = NITTER_BASE cfg →
           (∀ k, k ∈ ["substack"; "fintech_news"; "twitter_accounts"] →
                 categories cfg' !! k = categories cfg !! k) →
           build_feed_sources cfg' = Ok srcs).
Proof.
  intros Hb subs news accounts.
  destruct (build_feed_sources_Ok cfg srcs Hb) as (named & twitter & -> & Hn & Ht).
  destruct (mapM_result_Ok _ _ _ Hn) as [Hlen Hall].
  destruct (mapM_result_Ok _ _ _ Ht) as [Hlent _].
  fold subs news in Hlen, Hall. rewrite length_app in Hlen.
  split; [|split; [|split]].
  - rewrite length_app, Hlen, Hlent. reflexivity.
  - intros i item Hi.
    destruct (Hall i item) as (s & Hs & Hok).
    { by apply lookup_app_l_Some. }
    apply named_source_Ok in Hok as (? & ? & ? & Hcat).
    exists s. split; [by apply lookup_app_l_Some|].
    rewrite bool_decide_eq_true_2 in Hcat; [done|].
    apply list_elem_of_lookup. eauto.
  - intros i item Hi.
    destruct (Hall (length subs + i) item) as (s & Hs & Hok).
    { rewrite lookup_app_r by lia. by replace (length subs + i - length subs) with i by lia. }
    apply named_source_Ok in Hok as (? & ? & ? & Hcat).
    exists s. split; [by apply lookup_app_l_Some|].
    repeat split; try done.
    intros Hnot. by rewrite bool_decide_eq_false_2 in Hcat.
  - intros cfg' Hbase Hkeys. rewrite <- Hb. unfold build_feed_sources, category_list.
    rewrite Hbase.
    rewrite !(Hkeys "substack"), !(Hkeys "fintech_news"), !(Hkeys "twitter_accounts");
      try (repeat constructor).
    assert (named_source (categories cfg') = named_source (categories cfg)) as ->; [|done].
    unfold named_source, category_list.
    by rewrite (Hkeys "substack") by repeat constructor.
Qed.

Lemma C1_named_sources_witness :
  length [Demo.stack; Demo.news;
          mkSource "Twitter:jack" "twitter" "https://nitter.net/jack/rss" (Some "jack")] =
    length (category_list (categories Demo.cfg) "substack") +
    length (category_list (categories Demo.cfg) "fintech_news") +
    length (category_list (categories Demo.cfg) "twitter_accounts").
Proof.
  apply (C1_named_sources Demo.cfg
           [Demo.stack; Demo.news;
            mkSource "Twitter:jack" "twitter" "https://nitter.net/jack/rss" (Some "jack")]).
  vm_compute. reflexivity.
Defined.

(** C1, as stated, fails: the key [blogs] is not [twitter_accounts] and
    lists one declaration, and the expander yields no source at all. *)
Lemma C1_counterexample :
  categories Blogs.cfg !! "blogs" = Some [Blogs.decl] ∧
  "blogs" ≠ "twitter_accounts" ∧
  build_feed_sources Blogs.cfg = Ok [].
Proof.
  split; [vm_compute; reflexivity|].
  split; [discriminate|]. vm_compute. reflexivity.
Qed.

(** What the membership test of line 34 does with a declaration listed
    under both keys: both copies are tagged "substack". *)
Example twice_listed :
  src_category <$> default [] (match build_feed_sources Twice.cfg with
                               | Ok l => Some l
                               | Raise _ => None
                               end) = ["substack"; "substack"].
Proof. vm_compute. reflexivity. Qed.

(** ** Sorting and persisting *)

Global Instance published_ge_total : Total published_ge.
Proof. intros a b. unfold published_ge. apply (total String.le). Qed.





Global Instance column_order_total name ascending : Total (column_order name ascending).
Proof.
  intros a b. unfold column_order.
  destruct (column name a) as [x|]; [|by left].
  destruct (column name b) as [y|]; [|by left].
  destruct ascending; apply (total String.le).
Qed.






(** ** Collisions of the fingerprint *)

Lemma encode_app (s t : string) : Py.encode (s +:+ t) = Py.encode s ++ Py.encode t.
Proof.
  induction s as [|c s IH]; [done|].
  change (String c s +:+ t) with (String c (s +:+ t)). simpl.
  by rewrite IH, app_assoc.
Qed.

(** The key is the digest of the parts written one after the other. *)
Lemma hash_key_concat (s t l : string) :
  hash_key [Some s; Some t; Some l] = MD5.hexdigest (Py.encode (s +:+ t +:+ l)).
Proof.
  unfold hash_key. rewrite !fmap_cons, fmap_nil, !or_default_empty. simpl.
  by rewrite !encode_app, app_nil_r.
Qed.

(** C10. The fingerprint hashes the parts written one after the other,
    with nothing between them: triples with the same concatenation have
    the same fingerprint.  So ("ab", "c", "") and ("a", "bc", "") collide,
    and in a run with a source "ab" whose entry is titled "c" and a source
    "a" whose entry is titled "bc", the second record, which would be kept
    on its own, is dropped as a duplicate of the first. *)
Theorem C10_fingerprint_collision :
  (∀ s t l s' t' l' : string,
     s +:+ t +:+ l = s' +:+ t' +:+ l' →
     hash_key [Some s; Some t; Some l] = hash_key [Some s'; Some t'; Some l']) ∧
  hash_key [Some "ab"; Some "c"; Some ""] = hash_key [Some "a"; Some "bc"; Some ""] ∧
  ("ab", "c", "") ≠ ("a", "bc", "") ∧
  build_feed_sources Collision.cfg = Ok [Collision.source_ab; Collision.source_a] ∧
  (r_source <$> rows (process_source Collision.world [] st0 Collision.source_a),
   r_title <$> rows (process_source Collision.world [] st0 Collision.source_a)) =
    (["a"], ["bc"]) ∧
  (r_source <$> persisted_rows Collision.world,
   r_title <$> persisted_rows Collision.world,
   r_link <$> persisted_rows Collision.world) = (["ab"], ["c"], [""]).
Proof.
  split.
  { intros s t l s' t' l' H. by rewrite !hash_key_concat, H. }
  split; [by rewrite !hash_key_concat|].
  split; [discriminate|].
  split; [vm_compute; reflexivity|].
  split; vm_compute; reflexivity.
Qed.

Lemma C10_fingerprint_collision_witness :
  hash_key [Some "Stack"; Some "Rates"; Some "up"] =
    hash_key [Some "Stack"; Some "Rate"; Some "sup"].
Proof.
  apply (proj1 C10_fingerprint_collision). reflexivity.
Defined.

(** * Further properties of the script *)

(** ** Expanding the Twitter accounts (lines 38-47) *)

Lemma lstrip_char_not_leading (a : ascii) (s : string) :
  match Py.lstrip_char a s with
  | String c _ => c ≠ a
  | EmptyString => True
  end.
Proof.
  induction s as [|c s IH]; simpl; [done|].
  destruct (Ascii.eqb c a) eqn:E; [done|]. by apply Ascii.eqb_neq.
Qed.

Lemma lstrip_char_idem (a : ascii) (s : string) :
  Py.lstrip_char a (Py.lstrip_char a s) = Py.lstrip_char a s.
Proof.
  pose proof (lstrip_char_not_leading a s) as H.
  destruct (Py.lstrip_char a s) as [|c r]; simpl; [done|].
  apply Ascii.eqb_neq in H. by rewrite H.
Qed.

Lemma twitter_source_Ok (base : string) (acct : Decl) (s : SourceSpec) :
  twitter_source base acct = Ok s →
  ∃ h, acct !! "handle" = Some h ∧
       s = mkSource ("Twitter:" +:+ Py.lstrip_char "@" h) "twitter"
                    (base +:+ "/" +:+ Py.lstrip_char "@" h +:+ "/rss")
                    (Some (Py.lstrip_char "@" h)).
Proof.
  unfold twitter_source, getitem.
  destruct (acct !! "handle") as [h|]; [|done].
  intros [= <-]. eauto.
Qed.

(** X1. Every account under [twitter_accounts] yields, after all the
    named sources and in the order of the list, one source named
    "Twitter:" + handle, of category "twitter", with the URL
    [{nitter_base}/{handle}/rss] and the handle as mirror key, where all
    leading "@" of the declared handle are removed: the stored handle never
    begins with "@". *)
Theorem X1_twitter_sources (cfg : Config) (srcs : list SourceSpec) :
  build_feed_sources cfg = Ok srcs →
  ∀ i acct,
    category_list (categories cfg) "twitter_accounts" !! i = Some acct →
    ∃ h, acct !! "handle" = Some h ∧
         srcs !! (length (category_list (categories cfg) "substack") +
                  length (category_list (categories cfg) "fintech_news") + i) =
           Some (mkSource ("Twitter:" +:+ Py.lstrip_char "@" h) "twitter"
                          (mirror_url (Py.lstrip_char "@" h) (NITTER_BASE cfg))
                          (Some (Py.lstrip_char "@" h))) ∧
         String.prefix "@" (Py.lstrip_char "@" h) = false ∧
         Py.lstrip_char "@" (Py.lstrip_char "@" h) = Py.lstrip_char "@" h.
Proof.
  intros Hb i acct Hi.
  destruct (build_feed_sources_Ok cfg srcs Hb) as (named & twitter & -> & Hn & Ht).
  destruct (mapM_result_Ok _ _ _ Hn) as [Hlen _].
  destruct (mapM_result_Ok _ _ _ Ht) as [_ Hall].
  destruct (Hall i acct Hi) as (s & Hs & Hok).
  apply twitter_source_Ok in Hok as (h & Hh & ->).
  exists h. split; [done|]. split.
  - rewrite length_app in Hlen. rewrite <- Hlen.
    rewrite lookup_app_r by lia.
    by replace (length named + i - length named) with i by lia.
  - split; [|apply lstrip_char_idem].
    pose proof (lstrip_char_not_leading "@" h) as H.
    destruct (Py.lstrip_char "@" h) as [|c r]; [done|]. simpl.
    destruct (Ascii.ascii_dec "@" c) as [<-|Hne]; [done|].
    by destruct c as [[] [] [] [] [] [] [] []].
Qed.

Lemma X1_twitter_sources_witness :
  ∃ h, ({[ "handle" := "@jack" ]} : Decl) !! "handle" = Some h ∧
       [Demo.stack; Demo.news;
        mkSource "Twitter:jack" "twitter" "https://nitter.net/jack/rss" (Some "jack")]
         !! (length (category_list (categories Demo.cfg) "substack") +
             length (category_list (categories Demo.cfg) "fintech_news") + 0) =
         Some (mkSource ("Twitter:" +:+ Py.lstrip_char "@" h) "twitter"
                        (mirror_url (Py.lstrip_char "@" h) (NITTER_BASE Demo.cfg))
                        (Some (Py.lstrip_char "@" h))) ∧
       String.prefix "@" (Py.lstrip_char "@" h) = false ∧
       Py.lstrip_char "@" (Py.lstrip_char "@" h) = Py.lstrip_char "@" h.
Proof.
  apply (X1_twitter_sources Demo.cfg
           [Demo.stack; Demo.news;
            mkSource "Twitter:jack" "twitter" "https://nitter.net/jack/rss" (Some "jack")]).
  - vm_compute. reflexivity.
  - vm_compute. reflexivity.
Defined.

(** ** When the expansion fails (lines 31-47) *)

Lemma mapM_result_first_Raise {A B : Type} (f : A → result B)
    (before : list A) (x : A) (after : list A) (e : exn) :
  Forall (λ a, ∃ y, f a = Ok y) before → f x = Raise e →
  mapM f (before ++ x :: after) = Raise e.
Proof.
  intros Hbefore Hx. induction Hbefore as [|a l [y Hy] _ IH]; simpl.
  - by rewrite Hx.
  - rewrite Hy. unfold mbind, result_bind at 1. by rewrite IH.
Qed.

Lemma mapM_result_total {A B : Type} (f : A → result B) (l : list A) :
  Forall (λ x, ∃ y, f x = Ok y) l → ∃ ys, mapM f l = Ok ys.
Proof.
  induction 1 as [|a l [y Hy] _ [ys IH]]; simpl; [by eexists|].
  rewrite Hy. unfold mbind, result_bind at 1.
  rewrite IH. unfold mbind, result_bind. by eexists.
Qed.

Lemma named_source_complete (cats : gmap string (list Decl)) (item : Decl) :
  is_Some (item !! "name") ∧ is_Some (item !! "url") →
  ∃ s, named_source cats item = Ok s.
Proof.
  intros [[n Hn] [u Hu]]. unfold named_source, getitem. rewrite Hn, Hu. by eexists.
Qed.

Lemma twitter_source_complete (base : string) (acct : Decl) :
  is_Some (acct !! "handle") → ∃ s, twitter_source base acct = Ok s.
Proof.
  intros [h Hh]. unfold twitter_source, getitem. rewrite Hh. by eexists.
Qed.

(** A run whose expansion raises ends there, with nothing printed,
    requested or written. *)
Lemma main_expansion_raises (W : World) (e : exn) :
  path_exists W (CFG_PATH W) = true →
  build_feed_sources (yaml_safe_load W (CFG_PATH W)) = Raise e →
  main W = mkRun (Uncaught e) [] [] [].
Proof. intros Hp Hb. unfold main. by rewrite Hp, Hb. Qed.

(** X2. A declaration that lacks a key it is asked for stops the run.
    When the declarations before it under [substack] and [fintech_news]
    have a [name] and a [url], a declaration without [name] raises
    [KeyError] "name", and one with a [name] and without [url] raises
    [KeyError] "url"; when all these declarations have both and the
    accounts before it have a [handle], an account without [handle] raises
    [KeyError] "handle".  The error is not caught: the run ends on it,
    having printed nothing, requested nothing and written no file. *)
Theorem X2_expansion_errors (W : World) :
  let cfg := yaml_safe_load W (CFG_PATH W) in
  let named := category_list (categories cfg) "substack" ++
               category_list (categories cfg) "fintech_news" in
  let accounts := category_list (categories cfg) "twitter_accounts" in
  let complete := λ item : Decl, is_Some (item !! "name") ∧ is_Some (item !! "url") in
  path_exists W (CFG_PATH W) = true →
  (∀ before item after,
     named = before ++ item :: after → Forall complete before →
     (item !! "name" = None →
      main W = mkRun (Uncaught (KeyError "name")) [] [] []) ∧
     (is_Some (item !! "name") → item !! "url" = None →
      main W = mkRun (Uncaught (KeyError "url")) [] [] [])) ∧
  (∀ before acct after,
     accounts = before ++ acct :: after → Forall complete named →
     Forall (λ a : Decl, is_Some (a !! "handle")) before →
     acct !! "handle" = None →
     main W = mkRun (Uncaught (KeyError "handle")) [] [] []).
Proof.
  intros cfg named accounts complete Hp. split.
  - intros before item after Hnamed Hbefore.
    assert (∀ key, named_source (categories cfg) item = Raise (KeyError key) →
                   main W = mkRun (Uncaught (KeyError key)) [] [] []) as Hrun.
    { intros key Hitem. apply main_expansion_raises; [done|].
      fold cfg. unfold build_feed_sources. fold named. cbv zeta. rewrite Hnamed.
      rewrite (mapM_result_first_Raise _ before item after (KeyError key)); [done| |done].
      eapply Forall_impl; [exact Hbefore|]. intros x. apply named_source_complete. }
    split.
    + intros Hn. apply Hrun. unfold named_source, getitem. by rewrite Hn.
    + intros [n Hn] Hu. apply Hrun. unfold named_source, getitem. by rewrite Hn, Hu.
  - intros before acct after Haccounts Hall Hbefore Hh.
    apply main_expansion_raises; [done|].
    fold cfg. unfold build_feed_sources. fold named accounts. cbv zeta.
    destruct (mapM_result_total (named_source (categories cfg)) named) as [srcs ->].
    { eapply Forall_impl; [exact Hall|]. intros x. apply named_source_complete. }
    unfold mbind, result_bind at 1. rewrite Haccounts.
    rewrite (mapM_result_first_Raise _ before acct after (KeyError "handle")); [done| |].
    + eapply Forall_impl; [exact Hbefore|]. intros x. apply twitter_source_complete.
    + unfold twitter_source, getitem. by rewrite Hh.
Qed.

Lemma X2_expansion_errors_witness :
  main NoUrl.world = mkRun (Uncaught (KeyError "url")) [] [] [].
Proof.
  refine (proj2 (proj1 (X2_expansion_errors NoUrl.world eq_refl)
                   [] ({[ "name" := "Stack" ]} : Decl) [] _ _) _ _).
  - vm_compute. reflexivity.
  - constructor.
  - eexists. vm_compute. reflexivity.
  - vm_compute. reflexivity.
Defined.

(** ** Invariants of the whole state *)

Section state_invariant.
Variable W : World.
Variable mirrors : list string.
Variable I : St → Prop.
Variable Src : SourceSpec → Prop.
Hypothesis I_log : ∀ msg st, I st → I (log msg st).
Hypothesis I_request : ∀ src url st,
  Src src → url_of mirrors src url → I st → I (try_fetch W url st).2.
Hypothesis I_entry : ∀ src st entry,
  Src src → I st → I (process_entry W src st entry).

Lemma fetch_mirrors_state_invariant (src : SourceSpec) (h : string) (ms : list string) :
  Src src → src_handle src = Some h → ms ⊆ mirrors →
  ∀ st, I st → I (fetch_mirrors W ms h st).2.
Proof.
  intros Hsrc Hh. induction ms as [|base ms IH]; intros Hsub st Hst; [done|].
  cbn [fetch_mirrors]. fold (mirror_url h base).
  assert (I (try_fetch W (mirror_url h base) st).2) as Hreq.
  { apply (I_request src); [done| |done]. right. exists base, h.
    split; [|done]. apply Hsub, elem_of_cons. by left. }
  assert (ms ⊆ mirrors) as Hsub'.
  { intros x Hx. apply Hsub, elem_of_cons. by right. }
  simpl in *.
  destruct (requests_get W (length (requested st)) (mirror_url h base)) as [code text|e].
  - destruct (accepted code text); [done|]. by apply IH.
  - apply IH; [done|]. by apply I_log.
Qed.

Lemma fetch_single_state_invariant (src : SourceSpec) (st : St) :
  Src src → I st → I (fetch_single W (src_url src) st).2.
Proof.
  intros Hsrc Hst. unfold fetch_single.
  assert (I (try_fetch W (src_url src) st).2) as Hreq.
  { apply (I_request src); [done| |done]. by left. }
  simpl in *.
  destruct (requests_get W (length (requested st)) (src_url src)) as [code text|e].
  - by destruct (accepted code text).
  - by apply I_log.
Qed.

Lemma fetch_feed_state_invariant (src : SourceSpec) (st : St) :
  Src src → I st → I (fetch_feed W mirrors (src_url src) (src_handle src) st).2.
Proof.
  intros Hsrc Hst. unfold fetch_feed.
  destruct (src_handle src) as [h|] eqn:Hh; [|by apply fetch_single_state_invariant].
  destruct (_ && _); [|by apply fetch_single_state_invariant].
  by apply (fetch_mirrors_state_invariant src).
Qed.

Lemma entries_state_invariant (src : SourceSpec) (es : list Entry) (st : St) :
  Src src → I st → I (fold_left (process_entry W src) es st).
Proof.
  intros Hsrc. revert st. induction es as [|e es IH]; intros st H; simpl; auto.
Qed.

Lemma process_source_state_invariant (st : St) (src : SourceSpec) :
  Src src → I st → I (process_source W mirrors st src).
Proof.
  intros Hsrc Hst. unfold process_source.
  pose proof (fetch_feed_state_invariant src st Hsrc Hst) as Hf.
  destruct (fetch_feed W mirrors (src_url src) (src_handle src) st) as [xml st1].
  simpl in Hf. destruct xml as [text|]; [|by apply I_log].
  destruct (negb (Py.truthy text)); [by apply I_log|].
  apply entries_state_invariant; [done|].
  destruct (bozo _); [by apply I_log|done].
Qed.

Lemma collect_state_invariant (srcs : list SourceSpec) (st : St) :
  Forall Src srcs → I st → I (collect W mirrors srcs st).
Proof.
  unfold collect. intros Hall. revert st.
  induction Hall as [|src srcs Hsrc _ IH]; intros st Hst; simpl; [done|].
  by apply IH, process_source_state_invariant.
Qed.
End state_invariant.

(** What a run that completes returns, in terms of the final state of
    its main loop. *)
Lemma main_final_state (W : World) :
  run_outcome (main W) = Completed →
  main W =
    mkRun Completed
      (stdout (final_state W) ++
       ["[aggregator] Collected " +:+ pretty (length (rows (final_state W))) +:+ " items.";
        "[aggregator] Wrote " +:+ out_path W +:+ " with " +:+
          pretty (length (sort_values W (rows (final_state W)))) +:+ " rows."])
      (requested (final_state W))
      [(out_path W, sort_values W (rows (final_state W)))].
Proof.
  unfold main, final_state, feed_sources.
  destruct (path_exists W (CFG_PATH W)); [|done].
  destruct (build_feed_sources _) as [srcs|e]; [|done]. simpl.
  destruct (makedirs W "data"); [done|].
  destruct (to_csv W (out_path W)); [done|].
  intros _. simpl. by rewrite <- app_assoc.
Qed.

(** What any run printed: the output of its main loop, if it got there,
    and texts that carry the tag. *)
Lemma main_stdout_cases (W : World) :
  ∃ more, Forall tagged more ∧
          (run_stdout (main W) = more ∨
           run_stdout (main W) = stdout (final_state W) ++ more).
Proof.
  unfold main, final_state, feed_sources.
  destruct (path_exists W (CFG_PATH W)); simpl.
  - destruct (build_feed_sources _) as [srcs|e]; simpl.
    + destruct (makedirs W "data"); simpl.
      { eexists. split; [|right; reflexivity]. repeat constructor. by eexists. }
      destruct (to_csv W (out_path W)); simpl.
      { eexists. split; [|right; reflexivity]. repeat constructor. by eexists. }
      eexists. split; [|right; rewrite <- app_assoc; reflexivity].
      repeat constructor; by eexists.
    + exists []. split; [constructor|by left].
  - eexists. split; [|left; reflexivity]. repeat constructor. by eexists.
Qed.

Lemma kept_rows_final_state (W : World) : kept_rows W = rows (final_state W).
Proof.
  unfold kept_rows, final_state, feed_sources.
  destruct (build_feed_sources _) as [srcs|e]; done.
Qed.


(** ** What a run requests and prints *)

Lemma final_state_invariant (W : World) (I : St → Prop) :
  (∀ msg st, I st → I (log msg st)) →
  (∀ src url st,
     src ∈ feed_sources W →
     url_of (NITTER_MIRRORS (yaml_safe_load W (CFG_PATH W))) src url →
     I st → I (try_fetch W url st).2) →
  (∀ src st entry, src ∈ feed_sources W → I st → I (process_entry W src st entry)) →
  I st0 → I (final_state W).
Proof.
  intros Hlog Hreq Hentry H0. unfold final_state.
  apply (collect_state_invariant W _ I (λ src, src ∈ feed_sources W)); auto.
  by apply Forall_forall.
Qed.



Lemma final_state_tagged (W : World) (text : string) :
  text ∈ stdout (final_state W) → tagged text.
Proof.
  revert text.
  apply (final_state_invariant W (λ st, ∀ text, text ∈ stdout st → tagged text)).
  - intros msg st H l. simpl.
    intros [Hl| ->%list_elem_of_singleton]%elem_of_app; [by apply H|by eexists].
  - intros src url st _ _ H. exact H.
  - intros src st entry _ H l.
    destruct (process_entry_output W src st entry) as [-> _]. apply H.
  - intros l Hl. by apply elem_of_nil in Hl.
Qed.

(** X5. Whatever a run prints goes through [log]: every text it writes
    to standard output, one for each call of [print], begins with the tag
    "[aggregator] ".  (A text that holds a line feed makes several lines,
    of which the first carries the tag.) *)
Theorem X5_output_tagged (W : World) (text : string) :
  text ∈ run_stdout (main W) → tagged text.
Proof.
  destruct (main_stdout_cases W) as (more & Hmore & [-> | ->]).
  - intros Hin. by apply (proj1 (Forall_forall _ _) Hmore).
  - intros [Hin|Hin]%elem_of_app.
    + by apply (final_state_tagged W).
    + by apply (proj1 (Forall_forall _ _) Hmore).
Qed.

Lemma X5_output_tagged_witness :
  tagged "[aggregator] SKIP (unreachable): News -> https://news.example/rss".
Proof.
  apply (X5_output_tagged Demo.world).
  apply (bool_decide_unpack _). vm_compute. exact I.
Defined.

(** ** What the rows look like *)

Lemma kept_rows_invariant_sources (W : World) (P : NewsRecord → Prop) :
  (∀ src st entry, src ∈ feed_sources W → P (entry_row W src entry st)) →
  ∀ r, r ∈ kept_rows W → P r.
Proof.
  intros HP. rewrite kept_rows_final_state.
  apply (final_state_invariant W (λ st, ∀ r, r ∈ rows st → P r)).
  - intros msg st H. exact H.
  - intros src url st _ _ H. exact H.
  - intros src st entry Hsrc H r. rewrite process_entry_eq. cbv zeta.
    destruct (after_parse_fields W entry st) as (Hrows & _).
    destruct (negb _); [by rewrite Hrows; apply H|].
    case_bool_decide; [by rewrite Hrows; apply H|]. simpl.
    intros [?| ->%list_elem_of_singleton]%elem_of_app; [by apply H|by apply HP].
  - intros r Hr. by apply elem_of_nil in Hr.
Qed.

Lemma feed_sources_category (W : World) (src : SourceSpec) :
  src ∈ feed_sources W →
  src_category src ∈ ["substack"; "fintech_news"; "twitter"].
Proof.
  unfold feed_sources.
  destruct (build_feed_sources _) as [srcs|e] eqn:Hb; [|by intros ?%elem_of_nil].
  destruct (build_feed_sources_Ok _ srcs Hb) as (named & twitter & -> & Hn & Ht).
  destruct (mapM_result_Ok _ _ _ Hn) as [_ Hnamed].
  destruct (mapM_result_Ok _ _ _ Ht) as [Hlt Htw].
  destruct (mapM_result_Ok _ _ _ Hn) as [Hln _].
  intros [Hs|Hs]%elem_of_app; apply list_elem_of_lookup in Hs as [i Hi].
  - assert (is_Some (named !! i)) as Hlt' by eauto.
    apply lookup_lt_is_Some in Hlt'. rewrite Hln in Hlt'.
    apply lookup_lt_is_Some in Hlt' as [item Hitem].
    destruct (Hnamed i item Hitem) as (s & Hs & Hok). simplify_eq.
    apply named_source_Ok in Hok as (_ & _ & _ & ->).
    case_bool_decide; set_solver.
  - assert (is_Some (twitter !! i)) as Hlt' by eauto.
    apply lookup_lt_is_Some in Hlt'. rewrite Hlt in Hlt'.
    apply lookup_lt_is_Some in Hlt' as [acct Hacct].
    destruct (Htw i acct Hacct) as (s & Hs & Hok). simplify_eq.
    apply twitter_source_Ok in Hok as (h & _ & ->). set_solver.
Qed.

(** X6. Every row of the main loop carries the name and the category of
    one of the expanded sources, and its category is one of "substack",
    "fintech_news" and "twitter", whatever keys the configuration has. *)
Theorem X6_rows_of_configured_sources (W : World) (r : NewsRecord) :
  r ∈ kept_rows W →
  (∃ src, src ∈ feed_sources W ∧
          r_source r = src_source src ∧ r_category r = src_category src) ∧
  r_category r ∈ ["substack"; "fintech_news"; "twitter"].
Proof.
  revert r.
  apply (kept_rows_invariant_sources W
           (λ r, (∃ src, src ∈ feed_sources W ∧
                         r_source r = src_source src ∧ r_category r = src_category src) ∧
                 r_category r ∈ ["substack"; "fintech_news"; "twitter"])).
  intros src st entry Hsrc. split; [by exists src|].
  by apply (feed_sources_category W).
Qed.

Lemma X6_rows_of_configured_sources_witness :
  (∃ src, src ∈ feed_sources Demo.world ∧
          "Twitter:jack" = src_source src ∧ "twitter" = src_category src) ∧
  "twitter" ∈ ["substack"; "fintech_news"; "twitter"].
Proof.
  apply (X6_rows_of_configured_sources Demo.world
           (mkRow "Twitter:jack" "twitter" "hello" "https://nitter.example/jack/1"
                  "hello" "2024-03-03T08:00:00" "2024-03-04T00:00:03+00:00")).
  apply (bool_decide_unpack _). vm_compute. exact I.
Defined.

Lemma occurs_app (c : ascii) (s t : string) :
  occurs c (s +:+ t) = occurs c s || occurs c t.
Proof.
  induction s as [|d s IH]; [done|].
  change (String d s +:+ t) with (String d (s +:+ t)). simpl.
  by rewrite IH, orb_assoc.
Qed.

Lemma occurs_lstrip (c : ascii) (s : string) :
  occurs c s = false → occurs c (Py.lstrip s) = false.
Proof.
  induction s as [|d s IH]; simpl; [done|].
  intros [Hd Hs]%orb_false_iff. destruct (Py.is_space d); [auto|].
  simpl. by rewrite Hd, Hs.
Qed.

Lemma occurs_rstrip (c : ascii) (s : string) :
  occurs c s = false → occurs c (Py.rstrip s) = false.
Proof.
  induction s as [|d s IH]; simpl; [done|].
  intros [Hd Hs]%orb_false_iff. specialize (IH Hs).
  destruct (Py.rstrip s) as [|e r].
  - destruct (Py.is_space d); [done|]. simpl. by rewrite Hd.
  - simpl in *. by rewrite Hd, IH.
Qed.

Lemma occurs_slice_to (c : ascii) (n : nat) (s : string) :
  occurs c s = false → occurs c (Py.slice_to n s) = false.
Proof.
  revert s. induction n as [|n IH]; intros [|d s]; simpl; try done.
  intros [Hd Hs]%orb_false_iff. by rewrite Hd, IH.
Qed.

Lemma occurs_replace (a b c : ascii) (s : string) :
  c ≠ b → (c = a ∨ occurs c s = false) → occurs c (Py.replace a b s) = false.
Proof.
  intros Hcb. induction s as [|d s IH]; simpl; [done|].
  intros Hc. apply orb_false_iff. split.
  - destruct (Ascii.eqb d a) eqn:Hda.
    + apply Ascii.eqb_neq. congruence.
    + destruct Hc as [->|[Hd _]%orb_false_iff]; [|done].
      exact Hda.
  - apply IH. destruct Hc as [->|[_ Hs]%orb_false_iff]; auto.
Qed.

Lemma clean_summary_single_line (s : string) :
  occurs "010" (clean_summary (Py.strip s)) = false ∧
  occurs "013" (clean_summary (Py.strip s)) = false.
Proof.
  rewrite clean_summary_cleaned.
  assert (occurs "010" (cleaned s) = false ∧ occurs "013" (cleaned s) = false) as [Hn Hr].
  { unfold cleaned, Py.strip. split; apply occurs_rstrip, occurs_lstrip.
    - apply occurs_replace; [done|]. right. apply occurs_replace; [done|]. by left.
    - apply occurs_replace; [done|]. by left. }
  destruct (2000 <? String.length (cleaned s)); [|done].
  rewrite !occurs_app, !occurs_slice_to by done. done.
Qed.

(** X7. In every row of the main loop the title and the link have no
    white space at either end (stripping them changes nothing), and the
    summary is one line of at most 2003 characters: it contains neither a
    line feed nor a carriage return. *)
Theorem X7_rows_normalized (W : World) (r : NewsRecord) :
  r ∈ kept_rows W →
  Py.strip (r_title r) = r_title r ∧
  Py.strip (r_link r) = r_link r ∧
  String.length (r_summary r) ≤ 2003 ∧
  occurs "010" (r_summary r) = false ∧
  occurs "013" (r_summary r) = false.
Proof.
  revert r.
  apply (kept_rows_invariant_sources W
           (λ r, Py.strip (r_title r) = r_title r ∧ Py.strip (r_link r) = r_link r ∧
                 String.length (r_summary r) ≤ 2003 ∧
                 occurs "010" (r_summary r) = false ∧ occurs "013" (r_summary r) = false)).
  intros src st entry _. simpl.
  rewrite entry_title_eq, entry_link_eq, entry_summary_eq, !strip_idem.
  split; [done|]. split; [done|]. split; [|apply clean_summary_single_line].
  rewrite clean_summary_cleaned.
  destruct (2000 <? String.length (cleaned (raw_summary entry))) eqn:HL.
  - rewrite length_app_string, length_slice_to.
    change (String.length "...") with 3. lia.
  - apply Nat.ltb_ge in HL. lia.
Qed.

Lemma X7_rows_normalized_witness :
  Py.strip "Rates" = "Rates" ∧
  Py.strip "https://stack.example/1" = "https://stack.example/1" ∧
  String.length "Up." ≤ 2003 ∧
  occurs "010" "Up." = false ∧
  occurs "013" "Up." = false.
Proof.
  apply (X7_rows_normalized Demo.world
           (mkRow "Stack" "substack" "Rates" "https://stack.example/1" "Up."
                  "2024-03-02T08:00:00" "2024-03-04T00:00:00+00:00")).
  apply (bool_decide_unpack _). vm_compute. exact I.
Defined.

(** ** What the fetch stage returns *)

(** X8. When the fetch stage returns a body, that body is the text of
    the answer to the last request it made, the answer had status 200, and
    the body is not blank; so the test [not xml] of the main loop skips a
    source only when the fetch stage returned nothing. *)
Theorem X8_fetched_body (W : World) (mirrors : list string) (url : string)
    (handle : option string) (st : St) (text : string) :
  (fetch_feed W mirrors url handle st).1 = Some text →
  (∃ u, last (requested (fetch_feed W mirrors url handle st).2) = Some u ∧
        requests_get W (length (requested (fetch_feed W mirrors url handle st).2) - 1) u =
          Response 200 text) ∧
  Py.strip text ≠ "" ∧ Py.truthy text = true.
Proof.
  intros H. by apply fetch_feed_Some.
Qed.

Lemma X8_fetched_body_witness :
  (∃ u, last (requested (fetch_feed Demo.world ["https://nitter.net"; "https://nitter.example"]
                           "https://nitter.net/jack/rss" (Some "jack") st0).2) = Some u ∧
        requests_get Demo.world
          (length (requested (fetch_feed Demo.world
                                ["https://nitter.net"; "https://nitter.example"]
                                "https://nitter.net/jack/rss" (Some "jack") st0).2) - 1) u =
          Response 200 "<rss>jack</rss>") ∧
  Py.strip "<rss>jack</rss>" ≠ "" ∧ Py.truthy "<rss>jack</rss>" = true.
Proof.
  apply (X8_fetched_body Demo.world ["https://nitter.net"; "https://nitter.example"]
           "https://nitter.net/jack/rss" (Some "jack") st0 "<rss>jack</rss>").
  reflexivity.
Defined.

(** ** How the rows grow *)

Lemma process_entry_grows (W : World) (src : SourceSpec) (st : St) (entry : Entry) :
  ∃ new, rows (process_entry W src st entry) = rows st ++ new ∧ length new ≤ 1 ∧
         seen st ⊆ seen (process_entry W src st entry).
Proof.
  rewrite process_entry_eq. cbv zeta.
  destruct (after_parse_fields W entry st) as (Hr & Hs & _).
  destruct (negb _).
  { exists []. rewrite Hr, Hs, app_nil_r. split; [done|]. split; [simpl; lia|done]. }
  case_bool_decide.
  { exists []. rewrite Hr, Hs, app_nil_r. split; [done|]. split; [simpl; lia|done]. }
  eexists. simpl. split; [done|]. split; [done|]. apply union_subseteq_r.
Qed.

Lemma entries_grow (W : World) (src : SourceSpec) (es : list Entry) (st : St) :
  ∃ new, rows (fold_left (process_entry W src) es st) = rows st ++ new ∧
         length new ≤ length es ∧
         seen st ⊆ seen (fold_left (process_entry W src) es st).
Proof.
  revert st. induction es as [|e es IH]; intros st; simpl.
  { exists []. by rewrite app_nil_r. }
  destruct (process_entry_grows W src st e) as (new1 & H1 & Hl1 & Hs1).
  destruct (IH (process_entry W src st e)) as (new2 & H2 & Hl2 & Hs2).
  exists (new1 ++ new2). rewrite H2, H1, <- app_assoc, length_app.
  split; [done|]. split; [lia|set_solver].
Qed.

Lemma process_source_grows (W : World) (mirrors : list string) (st : St) (src : SourceSpec) :
  ∃ new, rows (process_source W mirrors st src) = rows st ++ new ∧ length new ≤ 50 ∧
         seen st ⊆ seen (process_source W mirrors st src).
Proof.
  unfold process_source.
  destruct (fetch_feed_records W mirrors (src_url src) (src_handle src) st) as [Hr Hs].
  destruct (fetch_feed W mirrors (src_url src) (src_handle src) st) as [xml st1].
  simpl in Hr, Hs.
  assert (∃ new, rows st1 = rows st ++ new ∧ length new ≤ 50 ∧ seen st ⊆ seen st1) as Hskip.
  { exists []. rewrite Hr, Hs, app_nil_r. split; [done|]. split; [simpl; lia|done]. }
  destruct xml as [text|]; [|done].
  destruct (negb (Py.truthy text)); [done|].
  match goal with
  | |- context [fold_left _ ?es ?s] =>
      destruct (entries_grow W src es s) as (new & Hn & Hl & Hsub);
      assert (rows s = rows st ∧ seen s = seen st) as [Hr' Hs'] by (by destruct (bozo _))
  end.
  exists new. rewrite Hn, Hr'. split; [done|]. split.
  - rewrite length_take in Hl. lia.
  - by rewrite <- Hs'.
Qed.

Lemma collect_grows (W : World) (mirrors : list string) (srcs : list SourceSpec) (st : St) :
  ∃ new, rows (collect W mirrors srcs st) = rows st ++ new ∧
         length new ≤ 50 * length srcs.
Proof.
  unfold collect. revert st. induction srcs as [|src srcs IH]; intros st; simpl.
  { exists []. by rewrite app_nil_r. }
  destruct (process_source_grows W mirrors st src) as (new1 & H1 & Hl1 & _).
  destruct (IH (process_source W mirrors st src)) as (new2 & H2 & Hl2).
  exists (new1 ++ new2). rewrite H2, H1, <- app_assoc, length_app.
  split; [done|]. lia.
Qed.

(** X9. A source only appends: after it is processed the earlier rows
    are still there, in place, followed by at most 50 new ones, and the
    seen set has lost nothing.  A run therefore keeps at most 50 rows per
    expanded source. *)
Theorem X9_at_most_fifty_per_source (W : World) (mirrors : list string) (st : St)
    (src : SourceSpec) :
  (∃ new, rows (process_source W mirrors st src) = rows st ++ new ∧ length new ≤ 50 ∧
          seen st ⊆ seen (process_source W mirrors st src)) ∧
  length (kept_rows W) ≤ 50 * length (feed_sources W).
Proof.
  split; [apply process_source_grows|].
  rewrite kept_rows_final_state. unfold final_state.
  destruct (collect_grows W (NITTER_MIRRORS (yaml_safe_load W (CFG_PATH W)))
              (feed_sources W)
              (log ("Loaded " +:+ pretty (length (feed_sources W)) +:+ " feeds.") st0))
    as (new & -> & Hl).
  simpl. lia.
Qed.

(** ** Nothing is lost but duplicates *)







(** ** Reading the clock *)

Lemma after_parse_clock (W : World) (entry : Entry) (st : St) :
  clock (after_parse W entry st) =
    match first_parsed W (date_candidates entry) with
    | Some _ => clock st
    | None => S (clock st)
    end.
Proof.
  unfold after_parse, parse_entry. rewrite parse_published_first_parsed.
  by destruct (first_parsed W (date_candidates entry)).
Qed.

Lemma entry_published_eq (W : World) (entry : Entry) (st : St) :
  entry_published W entry st =
    default (now_utc W (clock st)) (first_parsed W (date_candidates entry)).
Proof.
  unfold entry_published, parse_entry. rewrite parse_published_first_parsed.
  by destruct (first_parsed W (date_candidates entry)).
Qed.

(** X11. An entry reads the clock once if none of its dates parses, and
    once more if it is kept.  So a kept entry without a usable date has as
    [published] the reading just before the one in its [collected_at]; a
    kept entry with a date has its [collected_at] read at the clock's
    current position; and an entry that is not kept still uses up one
    reading when it has no usable date. *)
Theorem X11_clock_readings (W : World) (src : SourceSpec) (st : St) (entry : Entry) :
  let st' := process_entry W src st entry in
  let dated := first_parsed W (date_candidates entry) in
  (rows st' = rows st →
   clock st' = clock st + (if dated is Some _ then 0 else 1)) ∧
  (rows st' ≠ rows st →
   ∃ row, rows st' = rows st ++ [row] ∧
     r_published row = isoformat (default (now_utc W (clock st)) dated) ∧
     r_collected_at row =
       isoformat (now_utc W (clock st + (if dated is Some _ then 0 else 1))) ∧
     clock st' = clock st + (if dated is Some _ then 1 else 2)).
Proof.
  intros st' dated. subst st' dated.
  rewrite process_entry_eq. cbv zeta.
  destruct (after_parse_fields W entry st) as (Hr & _).
  pose proof (after_parse_clock W entry st) as Hc.
  assert (clock (after_parse W entry st) =
            clock st + (if first_parsed W (date_candidates entry) is Some _ then 0 else 1))
    as Hc'.
  { rewrite Hc. destruct (first_parsed W (date_candidates entry)); lia. }
  destruct (negb _); [by rewrite Hr|].
  case_bool_decide; [by rewrite Hr|]. simpl. split.
  - intros Heq. apply (f_equal length) in Heq. rewrite length_app in Heq. simpl in Heq. lia.
  - intros _. eexists. split; [done|]. simpl.
    rewrite entry_published_eq, Hc'. split; [done|]. split; [done|].
    destruct (first_parsed W (date_candidates entry)); lia.
Qed.

Lemma X11_clock_readings_witness :
  ∃ row, rows (process_entry Demo.world Demo.stack st0
                 (Demo.entry "Banks" "https://stack.example/2" "Down." None)) =
           rows st0 ++ [row] ∧
    r_published row =
      isoformat (default (now_utc Demo.world (clock st0))
                   (first_parsed Demo.world
                      (date_candidates (Demo.entry "Banks" "https://stack.example/2" "Down." None)))) ∧
    r_collected_at row =
      isoformat (now_utc Demo.world
                   (clock st0 +
                    (if first_parsed Demo.world
                          (date_candidates (Demo.entry "Banks" "https://stack.example/2" "Down." None))
                     is Some _ then 0 else 1))) ∧
    clock (process_entry Demo.world Demo.stack st0
             (Demo.entry "Banks" "https://stack.example/2" "Down." None)) =
      clock st0 +
      (if first_parsed Demo.world
            (date_candidates (Demo.entry "Banks" "https://stack.example/2" "Down." None))
       is Some _ then 1 else 2).
Proof.
  apply (X11_clock_readings Demo.world Demo.stack st0
           (Demo.entry "Banks" "https://stack.example/2" "Down." None)).
  vm_compute. discriminate.
Defined.

(** ** How many requests are made *)

(** X12. Without a [nitter_mirrors] list the mirror list is the primary
    base alone, and a Twitter source is fetched like any other: exactly one
    request, to its own [url], whose answer decides the result. *)
Theorem X12_default_mirror_list (W : World) (cfg : Config) (acct : Decl)
    (s : SourceSpec) (st : St) :
  cfg_nitter_mirrors cfg = None →
  twitter_source (NITTER_BASE cfg) acct = Ok s →
  NITTER_MIRRORS cfg = [NITTER_BASE cfg] ∧
  (fetch_feed W (NITTER_MIRRORS cfg) (src_url s) (src_handle s) st).1 =
    accepted_body (requests_get W (length (requested st)) (src_url s)) ∧
  requested (fetch_feed W (NITTER_MIRRORS cfg) (src_url s) (src_handle s) st).2 =
    requested st ++ [src_url s].
Proof.
  intros Hm Hs. unfold NITTER_MIRRORS. rewrite Hm. simpl. split; [done|].
  apply twitter_source_Ok in Hs as (h & _ & ->). simpl.
  destruct (Py.truthy (Py.lstrip_char "@" h) &&
            Py.contains "nitter"
              (NITTER_BASE cfg +:+ "/" +:+ Py.lstrip_char "@" h +:+ "/rss")) eqn:Hg.
  - simpl.
    destruct (requests_get W _ _) as [code text|e]; simpl; [|done].
    by destruct (accepted code text).
  - apply fetch_single_result.
Qed.

Lemma X12_default_mirror_list_witness :
  NITTER_MIRRORS Blogs.cfg = [NITTER_BASE Blogs.cfg] ∧
  (fetch_feed Demo.world (NITTER_MIRRORS Blogs.cfg)
     (src_url (mkSource "Twitter:jack" "twitter" "https://nitter.net/jack/rss" (Some "jack")))
     (src_handle (mkSource "Twitter:jack" "twitter" "https://nitter.net/jack/rss" (Some "jack")))
     st0).1 =
    accepted_body
      (requests_get Demo.world (length (requested st0))
         (src_url (mkSource "Twitter:jack" "twitter" "https://nitter.net/jack/rss" (Some "jack")))) ∧
  requested
    (fetch_feed Demo.world (NITTER_MIRRORS Blogs.cfg)
       (src_url (mkSource "Twitter:jack" "twitter" "https://nitter.net/jack/rss" (Some "jack")))
       (src_handle (mkSource "Twitter:jack" "twitter" "https://nitter.net/jack/rss" (Some "jack")))
       st0).2 =
    requested st0 ++
      [src_url (mkSource "Twitter:jack" "twitter" "https://nitter.net/jack/rss" (Some "jack"))].
Proof.
  apply (X12_default_mirror_list Demo.world Blogs.cfg {[ "handle" := "@jack" ]}).
  - reflexivity.
  - vm_compute. reflexivity.
Defined.








(** ** The string operations, characterized *)

Lemma prefix_app (sub s : string) :
  String.prefix sub s = true ↔ ∃ post, s = sub +:+ post.
Proof.
  revert s. induction sub as [|a sub IH]; intros s.
  { destruct s; simpl; (split; [intros _; by eexists|done]). }
  destruct s as [|b s]; simpl.
  { split; [done|]. by intros [post ?]. }
  destruct (Ascii.ascii_dec a b) as [->|Hne].
  - rewrite IH. split.
    + intros [post ->]. by exists post.
    + intros [post Hp]. injection Hp as ->. by exists post.
  - split; [done|]. intros [post Hp]. by injection Hp.
Qed.

(** X14. The test [sub in s] of line 97 is the substring test:
    [Py.contains sub s] holds exactly when [s] is some text, followed by
    [sub], followed by some text. *)
Theorem X14_contains_substring (sub s : string) :
  Py.contains sub s = true ↔ ∃ pre post, s = pre +:+ sub +:+ post.
Proof.
  induction s as [|c s IH].
  - cbn [Py.contains]. rewrite orb_false_r, prefix_app. split.
    + intros [post ->]. by exists "", post.
    + intros (pre & post & H). destruct pre; [by exists post|done].
  - cbn [Py.contains]. rewrite orb_true_iff, prefix_app, IH. split.
    + intros [[post ->]|(pre & post & ->)]; [by exists "", post|].
      by exists (String c pre), post.
    + intros (pre & post & H). destruct pre as [|d pre].
      * left. by exists post.
      * right. injection H as -> ->. by exists pre, post.
Qed.

Lemma X14_contains_substring_witness :
  ∃ pre post, "https://nitter.net/jack/rss" = pre +:+ "nitter" +:+ post.
Proof.
  apply (X14_contains_substring "nitter" "https://nitter.net/jack/rss"). reflexivity.
Defined.

Lemma lstrip_split (s : string) :
  ∃ l, s = l +:+ Py.lstrip s ∧ all_space l = true.
Proof.
  induction s as [|c s (l & Hl & Hs)]; simpl; [by exists ""|].
  destruct (Py.is_space c) eqn:Hc; [|by exists ""].
  exists (String c l). split.
  - change (String c l +:+ Py.lstrip s) with (String c (l +:+ Py.lstrip s)). by rewrite <- Hl.
  - simpl. by rewrite Hc, Hs.
Qed.

Lemma rstrip_split (s : string) :
  ∃ r, s = Py.rstrip s +:+ r ∧ all_space r = true ∧ stripped_right (Py.rstrip s).
Proof.
  induction s as [|c s (r & Hr & Hs & Hlast)]; simpl; [by exists ""|].
  destruct (Py.rstrip s) as [|d q] eqn:E.
  - change ("" +:+ r) with r in Hr. subst r.
    destruct (Py.is_space c) eqn:Hc.
    + exists (String c s). split; [done|]. split; [simpl; by rewrite Hc, Hs|done].
    + exists s. split; [done|]. split; [done|]. exact Hc.
  - exists r. split.
    + change (String c (String d q) +:+ r) with (String c (String d q +:+ r)).
      by rewrite <- Hr.
    + split; [done|]. exact Hlast.
Qed.

(** X15. [strip] removes white space from both ends and nothing else:
    the text is some white space, followed by its stripped form, followed
    by some white space, and the stripped form neither begins nor ends with
    a white-space character. *)
Theorem X15_strip_characterized (s : string) :
  (∃ l r, s = l +:+ Py.strip s +:+ r ∧ all_space l = true ∧ all_space r = true) ∧
  stripped_left (Py.strip s) ∧ stripped_right (Py.strip s).
Proof.
  destruct (lstrip_split s) as (l & Hl & Hls).
  destruct (rstrip_split (Py.lstrip s)) as (r & Hr & Hrs & Hlast).
  split; [|split].
  - exists l, r. unfold Py.strip. by rewrite <- Hr.
  - apply rstrip_stripped_left, lstrip_stripped_left.
  - exact Hlast.
Qed.

(** ** The bytes behind the fingerprint *)

Lemma decode_encode_char (c : ascii) (fuel : nat) (rest : list Z) :
  decode (S fuel) (Py.encode_char c ++ rest) = String c (decode fuel rest).
Proof. by destruct c as [[] [] [] [] [] [] [] []]. Qed.

Lemma decode_encode (s : string) (fuel : nat) :
  String.length s ≤ fuel → decode fuel (Py.encode s) = s.
Proof.
  revert fuel. induction s as [|c s IH]; intros fuel Hf.
  { by destruct fuel. }
  destruct fuel as [|fuel]; [simpl in Hf; lia|].
  cbn [Py.encode]. rewrite decode_encode_char, IH; [done|]. simpl in Hf. lia.
Qed.

Lemma encode_inj (s t : string) : Py.encode s = Py.encode t → s = t.
Proof.
  intros H.
  transitivity (decode (String.length s `max` String.length t) (Py.encode s)).
  - symmetry. apply decode_encode. lia.
  - rewrite H. apply decode_encode. lia.
Qed.

Lemma key_bytes_text (parts : list (option string)) :
  key_bytes parts = Py.encode (key_text parts).
Proof.
  unfold key_bytes. induction parts as [|p parts IH]; [done|].
  rewrite fmap_cons. cbn [concat key_text]. by rewrite IH, encode_app, or_default_empty.
Qed.

(** X16. The fingerprint is the md5 digest of the UTF-8 bytes of the
    parts written one after the other, a missing part counting as empty.
    The encoding loses nothing (it can be read back), so two lists of
    parts give md5 the same bytes exactly when their concatenations are the
    same text: apart from md5 itself, the missing separator is the only
    source of colliding keys. *)
Theorem X16_key_bytes (parts parts' : list (option string)) :
  hash_key parts = MD5.hexdigest (Py.encode (key_text parts)) ∧
  decode (String.length (key_text parts)) (Py.encode (key_text parts)) = key_text parts ∧
  (key_bytes parts = key_bytes parts' ↔ key_text parts = key_text parts').
Proof.
  split; [|split].
  - unfold hash_key. fold (key_bytes parts). by rewrite key_bytes_text.
  - by apply decode_encode.
  - rewrite !key_bytes_text. split; [apply encode_inj|by intros ->].
Qed.

Lemma X16_key_bytes_witness :
  key_bytes [Some "ab"; None; Some "c"] = key_bytes [Some "a"; Some "bc"].
Proof.
  apply (X16_key_bytes [Some "ab"; None; Some "c"] [Some "a"; Some "bc"]). reflexivity.
Defined.

Lemma le_bytes_range (n : nat) (x : Z) :
  Forall (λ b, (0 ≤ b < 256)%Z) (MD5.le_bytes n x).
Proof.
  revert x. induction n as [|n IH]; intros x; simpl; constructor; [|apply IH].
  apply Z.mod_pos_bound. lia.
Qed.

Lemma length_le_bytes (n : nat) (x : Z) : length (MD5.le_bytes n x) = n.
Proof. revert x. induction n as [|n IH]; intros x; simpl; [done|]. by rewrite IH. Qed.

Lemma hex_digit_char (x : Z) : (0 ≤ x < 16)%Z → hex_char (MD5.hex_digit x).
Proof.
  intros Hx. replace x with (Z.of_nat (Z.to_nat x)) by lia.
  assert (Z.to_nat x < 16) as Hlt by lia.
  revert Hlt. generalize (Z.to_nat x). intros n Hn.
  do 16 (destruct n as [|n]; [reflexivity|]). lia.
Qed.

Lemma hex_format (bs : list Z) :
  Forall (λ b, (0 ≤ b < 256)%Z) bs →
  String.length (MD5.hex bs) = 2 * length bs ∧
  ∀ c, occurs c (MD5.hex bs) = true → hex_char c.
Proof.
  induction 1 as [|b bs Hb _ [IHl IHc]]; [done|].
  cbn [MD5.hex]. split; [simpl; lia|].
  intros c. cbn [occurs]. intros [Hc|[Hc|Hc]%orb_true_iff]%orb_true_iff.
  - apply Ascii.eqb_eq in Hc as <-. apply hex_digit_char.
    split; [by apply Z.div_pos; lia|]. apply Z.div_lt_upper_bound; lia.
  - apply Ascii.eqb_eq in Hc as <-. apply hex_digit_char.
    apply Z.mod_pos_bound. lia.
  - by apply IHc.
Qed.

(** X17. A fingerprint is always 32 characters long, each of them one
    of "0123456789abcdef", whatever the parts are. *)
Theorem X17_fingerprint_format (parts : list (option string)) :
  String.length (hash_key parts) = 32 ∧
  ∀ c, occurs c (hash_key parts) = true → hex_char c.
Proof.
  unfold hash_key, MD5.hexdigest, MD5.digest.
  destruct (fold_left MD5.compress _ _) as [[[a b] c] d].
  assert (Forall (λ b, (0 ≤ b < 256)%Z)
            (MD5.le_bytes 4 a ++ MD5.le_bytes 4 b ++ MD5.le_bytes 4 c ++ MD5.le_bytes 4 d))
    as Hrange by (repeat apply Forall_app_2; apply le_bytes_range).
  destruct (hex_format _ Hrange) as [Hl Hc]. split; [|done].
  rewrite Hl, !length_app, !length_le_bytes. reflexivity.
Qed.

Lemma X17_fingerprint_format_witness : hex_char "9"%char.
Proof.
  apply (proj2 (X17_fingerprint_format [Some "abc"]) "9"%char). vm_compute. reflexivity.
Defined.

(** ** Processing an entry again *)

(** X18. An entry that repeats the source name, the trimmed title and
    the trimmed link of an entry processed just before it adds no row,
    whatever its summary and its dates are, and whichever of the two
    comes from which source. *)
Theorem X18_repeated_entry_adds_nothing (W : World) (src src' : SourceSpec) (st : St)
    (e e' : Entry) :
  src_source src' = src_source src →
  Py.strip (default "" (e_title e')) = Py.strip (default "" (e_title e)) →
  Py.strip (default "" (e_link e')) = Py.strip (default "" (e_link e)) →
  rows (process_entry W src' (process_entry W src st e) e') =
    rows (process_entry W src st e) ∧
  seen (process_entry W src' (process_entry W src st e) e') =
    seen (process_entry W src st e).
Proof.
  intros Hs Ht Hl.
  set (st1 := process_entry W src st e).
  assert (entry_title W e' st1 = entry_title W e st) as Ht'
    by (by rewrite !entry_title_eq).
  assert (entry_link W e' st1 = entry_link W e st) as Hl'
    by (by rewrite !entry_link_eq).
  assert (entry_key W src' e' st1 = entry_key W src e st) as Hk
    by (unfold entry_key; by rewrite Hs, Ht', Hl').
  destruct (after_parse_fields W e' st1) as (Hr1 & Hs1 & _).
  destruct (decide (entry_title W e st = "" ∧ entry_link W e st = "")) as [[H1 H2]|Hne].
  - rewrite (process_entry_discarded W src' st1 e') by congruence. done.
  - assert (entry_key W src e st ∈ seen st1) as Hin.
    { subst st1. destruct (decide (entry_key W src e st ∈ seen st)) as [Hin|Hnot].
      - rewrite process_entry_duplicate by done.
        by destruct (after_parse_fields W e st) as (_ & -> & _).
      - rewrite process_entry_kept; [simpl; by apply elem_of_union_l, elem_of_singleton| |done].
        destruct (decide (entry_title W e st = "")); [|by left].
        right. intros ?. by apply Hne. }
    rewrite (process_entry_duplicate W src' st1 e') by (by rewrite Hk). done.
Qed.

Lemma X18_repeated_entry_adds_nothing_witness :
  rows (process_entry Demo.world Demo.stack
          (process_entry Demo.world Demo.stack st0
             (Demo.entry " Rates " "https://stack.example/1" "Up." None))
          (Demo.entry "Rates" "https://stack.example/1" "Up again."
             (Some "2024-03-05T08:00:00"))) =
    rows (process_entry Demo.world Demo.stack st0
            (Demo.entry " Rates " "https://stack.example/1" "Up." None)) ∧
  seen (process_entry Demo.world Demo.stack
          (process_entry Demo.world Demo.stack st0
             (Demo.entry " Rates " "https://stack.example/1" "Up." None))
          (Demo.entry "Rates" "https://stack.example/1" "Up again."
             (Some "2024-03-05T08:00:00"))) =
    seen (process_entry Demo.world Demo.stack st0
            (Demo.entry " Rates " "https://stack.example/1" "Up." None)).
Proof.
  apply (X18_repeated_entry_adds_nothing Demo.world Demo.stack Demo.stack st0
           (Demo.entry " Rates " "https://stack.example/1" "Up." None)
           (Demo.entry "Rates" "https://stack.example/1" "Up again."
              (Some "2024-03-05T08:00:00")));
    reflexivity.
Defined.

(** ** The order of the rows of a source *)

Lemma entries_in_feed_order (W : World) (src : SourceSpec) (es : list Entry) (st : St) :
  ∃ new, rows (fold_left (process_entry W src) es st) = rows st ++ new ∧
         row_pair <$> new `sublist_of` entry_pair <$> es ∧
         Forall (λ r, r_source r = src_source src ∧ r_category r = src_category src) new.
Proof.
  revert st. induction es as [|e es IH]; intros st; simpl.
  { exists []. rewrite app_nil_r. split; [done|]. split; constructor. }
  destruct (IH (process_entry W src st e)) as (new & Hn & Hsub & Hall).
  rewrite Hn, process_entry_eq. cbv zeta.
  destruct (after_parse_fields W e st) as (Hr & _).
  assert (∃ new', rows st ++ new = rows st ++ new' ∧
                  row_pair <$> new' `sublist_of` entry_pair e :: (entry_pair <$> es) ∧
                  Forall (λ r, r_source r = src_source src ∧
                               r_category r = src_category src) new') as Hskip.
  { exists new. split; [done|]. split; [by constructor|done]. }
  destruct (negb _); [by rewrite Hr|].
  case_bool_decide; [by rewrite Hr|]. simpl.
  exists (entry_row W src e st :: new). split; [by rewrite <- app_assoc|]. split.
  - rewrite fmap_cons. unfold row_pair at 1, entry_pair at 1. simpl.
    rewrite entry_title_eq, entry_link_eq. by constructor.
  - by constructor.
Qed.

(** X20. The rows a source contributes follow the order of its feed:
    when the source is fetched, the new rows are appended in the order of
    the feed's first 50 entries, some of these being left out, each row
    with the trimmed title and link of its entry and the name and category
    of the source. *)
Theorem X20_rows_in_feed_order (W : World) (mirrors : list string) (st : St)
    (src : SourceSpec) (text : string) :
  (fetch_feed W mirrors (src_url src) (src_handle src) st).1 = Some text →
  ∃ new, rows (process_source W mirrors st src) = rows st ++ new ∧
         row_pair <$> new `sublist_of`
           entry_pair <$> take 50 (entries (feedparser_parse W text)) ∧
         Forall (λ r, r_source r = src_source src ∧ r_category r = src_category src) new.
Proof.
  intros Hf.
  destruct (fetch_feed_Some W mirrors (src_url src) (src_handle src) st text Hf)
    as (_ & _ & Ht).
  unfold process_source.
  destruct (fetch_feed_records W mirrors (src_url src) (src_handle src) st) as [Hr _].
  destruct (fetch_feed W mirrors (src_url src) (src_handle src) st) as [xml st1].
  simpl in Hf, Hr. subst xml. rewrite Ht. simpl.
  match goal with
  | |- context [fold_left _ ?es ?s] =>
      destruct (entries_in_feed_order W src es s) as (new & Hn & Hsub & Hall);
      assert (rows s = rows st) as Hr' by (by destruct (bozo _))
  end.
  exists new. by rewrite Hn, Hr'.
Qed.

Lemma X20_rows_in_feed_order_witness :
  ∃ new, rows (process_source Demo.world [] st0 Demo.stack) = rows st0 ++ new ∧
         row_pair <$> new `sublist_of`
           entry_pair <$> take 50 (entries (feedparser_parse Demo.world "<rss>stack</rss>")) ∧
         Forall (λ r, r_source r = src_source Demo.stack ∧
                      r_category r = src_category Demo.stack) new.
Proof.
  apply (X20_rows_in_feed_order Demo.world [] st0 Demo.stack "<rss>stack</rss>").
  reflexivity.
Defined.
